(** * fakeNewsDetector: the request pipeline of [app.py]

    A shallow embedding of the Flask service in [src/app.py]: input
    validation, prompt construction, extraction of the model's JSON
    answer, normalisation of the answer and the mapping of every outcome
    to an HTTP status.

    Python values are modelled as they are at run time.  A [str] is a
    sequence of Unicode code points (so that [len] counts what Python
    counts), a decoded JSON document is a tree of Python values, a [dict]
    is an insertion-ordered association list with unique keys, and an
    exception is an explicit outcome. *)

From Stdlib Require Import ZArith NArith List String Ascii Bool Lia Permutation.
Import ListNotations.

Open Scope Z_scope.

(* ================================================================== *)
(** * Part I.  Definitions                                             *)
(* ================================================================== *)

(** ** Python text *)

(** A code point. *)
Definition char := N.

(** A Python [str]: the list of its code points. *)
Definition str := list char.

(** The [str] of an ASCII literal of the source. *)
Fixpoint py (s : string) : str :=
  match s with
  | EmptyString => []
  | String a t => N_of_ascii a :: py t
  end.

(** [len(s)]. *)
Definition len (s : str) : Z := Z.of_nat (List.length s).

(** Truth value of a [str]: [not s] holds exactly for the empty string. *)
Definition str_truthy (s : str) : bool :=
  match s with
  | [] => false
  | _ :: _ => true
  end.

Fixpoint str_eqb (a b : str) : bool :=
  match a, b with
  | [], [] => true
  | x :: a', y :: b' => N.eqb x y && str_eqb a' b'
  | _, _ => false
  end.

(** [c.isspace()] for one code point: the characters [str.strip()]
    removes (CPython's [Py_UNICODE_ISSPACE]). *)
Definition isspace (c : char) : bool :=
  ((9 <=? c) && (c <=? 13) ||
   (28 <=? c) && (c <=? 32) ||
   (c =? 133) || (c =? 160) || (c =? 5760) ||
   (8192 <=? c) && (c <=? 8202) ||
   (c =? 8232) || (c =? 8233) || (c =? 8239) || (c =? 8287) ||
   (c =? 12288))%N.

(** [s.lstrip()]. *)
Fixpoint lstrip (s : str) : str :=
  match s with
  | [] => []
  | c :: t => if isspace c then lstrip t else s
  end.

(** [s.rstrip()]. *)
Fixpoint rstrip (s : str) : str :=
  match s with
  | [] => []
  | c :: t =>
      match rstrip t with
      | [] => if isspace c then [] else [c]
      | r => c :: r
      end
  end.

(** [s.strip()]. *)
Definition strip (s : str) : str := rstrip (lstrip s).

(** [p] is a prefix of [s]. *)
Fixpoint startswith (p s : str) : bool :=
  match p, s with
  | [], _ => true
  | x :: p', y :: s' => N.eqb x y && startswith p' s'
  | _ :: _, [] => false
  end.

(** [needle in hay]. *)
Fixpoint contains (needle hay : str) : bool :=
  startswith needle hay ||
  match hay with
  | [] => false
  | _ :: t => contains needle t
  end.

(** ** Python values *)

(** A Python [float] (IEEE binary64): a NaN, an infinity, or the finite
    value [(-1)^negative * m * 2^e]. *)
Inductive pyfloat : Type :=
| FNaN
| FInf (negative : bool)
| FFinite (negative : bool) (m : N) (e : Z).

(** The Python values a JSON document decodes to: [None], [bool],
    [int], [float], [str], [list] and [dict].  A [dict] keeps its keys
    unique and in insertion order. *)
#[warnings="-register-all"]
Inductive pyval : Type :=
| PNone
| PBool (b : bool)
| PInt (n : Z)
| PFloat (f : pyfloat)
| PStr (s : str)
| PList (l : list pyval)
| PDict (d : list (str * pyval)).

Definition dict := list (str * pyval).

(** The exceptions the pipeline can meet; every one is an [Exception]. *)
Inductive exn : Type :=
| AttributeError
| TypeError
| ValueError
| OverflowError
| RecursionError
| JSONDecodeError
| BadRequest
| ApiFailure
| EmptyResponse.

Inductive result (A : Type) : Type :=
| Ok (a : A)
| Raise (e : exn).
Arguments Ok {A} a.
Arguments Raise {A} e.

(** Lookup of a key, as [d[k]] finds it. *)
Fixpoint dict_get (d : dict) (k : str) : option pyval :=
  match d with
  | [] => None
  | (k', v) :: rest => if str_eqb k' k then Some v else dict_get rest k
  end.

(** [d[k] = v]: a key already present keeps its position. *)
Fixpoint dict_set (d : dict) (k : str) (v : pyval) : dict :=
  match d with
  | [] => [(k, v)]
  | (k', v') :: rest =>
      if str_eqb k' k then (k', v) :: rest else (k', v') :: dict_set rest k v
  end.

(** [d.get(k, default)] on a [dict]. *)
Definition field (d : dict) (k : str) (default : pyval) : pyval :=
  match dict_get d k with
  | Some x => x
  | None => default
  end.

(** [v.get(k, default)]: only a [dict] has the method. *)
Definition py_get (v : pyval) (k : str) (default : pyval) : result pyval :=
  match v with
  | PDict d => Ok (field d k default)
  | _ => Raise AttributeError
  end.

(** [v.strip()], as the handler applies it to a value it expects to be
    a [str]. *)
Definition py_strip (v : pyval) : result str :=
  match v with
  | PStr s => Ok (strip s)
  | _ => Raise AttributeError
  end.

Definition float_is_zero (f : pyfloat) : bool :=
  match f with
  | FFinite _ m _ => N.eqb m 0
  | _ => false
  end.

(** Truth value, as [if not data] tests it. *)
Definition truthy (v : pyval) : bool :=
  match v with
  | PNone => false
  | PBool b => b
  | PInt n => negb (n =? 0)
  | PFloat f => negb (float_is_zero f)
  | PStr s => str_truthy s
  | PList l => match l with [] => false | _ :: _ => true end
  | PDict d => match d with [] => false | _ :: _ => true end
  end.

Definition is_dict (v : pyval) : bool :=
  match v with
  | PDict _ => true
  | _ => false
  end.

Definition is_str (v : pyval) : bool :=
  match v with
  | PStr _ => true
  | _ => false
  end.

(** Sequencing of computations that may raise. *)
Definition and_then {A B : Type} (r : result A) (f : A -> result B) : result B :=
  match r with
  | Ok a => f a
  | Raise e => Raise e
  end.

Notation "'let*' x := r 'in' k" := (and_then r (fun x => k))
  (at level 10, x name, r at level 100, k at level 200).

(** ** The limits of the interpreter

    Two library calls of the source depend on the state of the
    interpreter.  [json.loads] stops with [RecursionError] when the
    nesting of the document uses up the call stack, and with
    [ValueError] when an integer literal has more digits than the
    interpreter converts; where exactly it stops depends on the version
    of the interpreter and on the depth of the call, so it is left
    open: [decoder_fault s] is the limit on which [json.loads(s)]
    stops, if it does.  [int(s)] refuses a string of more than
    [int_max_str_digits] digits, unless that limit is 0 (no limit); the
    interpreter never applies it to 640 digits or fewer. *)

Inductive fault : Type :=
| RecursionLimit
| DigitLimit.

Definition fault_exn (f : fault) : exn :=
  match f with
  | RecursionLimit => RecursionError
  | DigitLimit => ValueError
  end.

Record interpreter : Type := mkInterpreter {
  decoder_fault : str -> option fault;
  int_max_str_digits : N
}.

(** [int] refuses a number of [digits] digits. *)
Definition exceeds_digit_limit (I : interpreter) (digits : N) : bool :=
  ((0 <? int_max_str_digits I) && (640 <? digits) &&
   (int_max_str_digits I <? digits))%N.

(** ** Decimal literals to binary64

    [float(literal)] rounds the decimal value to the nearest binary64,
    ties to even; a value too large becomes an infinity. *)

(** The positive rational [n / d] rounded to binary64. *)
Definition round_binary64 (negative : bool) (n d : Z) : pyfloat :=
  let e1 := Z.log2 n - Z.log2 d - 52 in
  let scaled (e : Z) : Z * Z :=
    if 0 <=? e then (n, d * 2 ^ e) else (n * 2 ^ (- e), d) in
  let e2 :=
    let '(num, den) := scaled e1 in
    if 2 ^ 52 <=? num / den then e1 else e1 - 1 in
  let e3 := Z.max e2 (-1074) in
  let '(num, den) := scaled e3 in
  let q := num / den in
  let r := num mod den in
  let q' :=
    if 2 * r <? den then q
    else if den <? 2 * r then q + 1
    else if Z.even q then q else q + 1 in
  let '(m, e) := if q' =? 2 ^ 53 then (2 ^ 52, e3 + 1) else (q', e3) in
  if 971 <? e then FInf negative
  else if m =? 0 then FFinite negative 0 0
  else FFinite negative (Z.to_N m) e.

(** The value [(-1)^negative * digits * 10^e10] as a binary64.  The
    two tests on the size of [e10] only spare the computation of a huge
    power: from [10^400] on the value overflows, and a value below
    [2^(log2 digits + 1 + 3 * e10)], hence below [2^-1075], rounds to
    zero. *)
Definition float_of_decimal (negative : bool) (digits : N) (e10 : Z) : pyfloat :=
  if N.eqb digits 0 then FFinite negative 0 0
  else if 400 <=? e10 then FInf negative
  else if Z.log2 (Z.of_N digits) + 3 * e10 <? -1076 then FFinite negative 0 0
  else if 0 <=? e10 then round_binary64 negative (Z.of_N digits * 10 ^ e10) 1
  else round_binary64 negative (Z.of_N digits) (10 ^ (- e10)).

(** [int(f)] for a float: truncation toward zero; a NaN or an infinity
    has no integer value. *)
Definition float_trunc (f : pyfloat) : result Z :=
  match f with
  | FNaN => Raise ValueError
  | FInf _ => Raise OverflowError
  | FFinite negative m e =>
      let a := if 0 <=? e then Z.of_N m * 2 ^ e else Z.of_N m / 2 ^ (- e) in
      Ok (if negative then - a else a)
  end.

(** ** [json.loads]

    The decoder of the standard library ([json.decoder] with its C
    scanner), for a [str] argument: first the decoder as it works when
    no limit of the interpreter stops it ([json_decode], where [None]
    stands for [JSONDecodeError]), then [json_loads], which may stop on
    a limit. *)

(** Outcome of scanning a prefix of the input: a value and the rest of
    the input, a syntax error, or an exhausted recursion budget. *)
Inductive scan (A : Type) : Type :=
| Scanned (a : A) (rest : str)
| Invalid
| Exhausted.
Arguments Scanned {A} a rest.
Arguments Invalid {A}.
Arguments Exhausted {A}.

(** JSON whitespace: space, tab, line feed, carriage return. *)
Definition is_json_ws (c : char) : bool :=
  ((c =? 32) || (c =? 9) || (c =? 10) || (c =? 13))%N.

Fixpoint skip_ws (s : str) : str :=
  match s with
  | [] => []
  | c :: t => if is_json_ws c then skip_ws t else s
  end.

Definition is_digit (c : char) : bool := ((48 <=? c) && (c <=? 57))%N.

(** The longest run of ASCII digits at the head of [s], and what
    follows it. *)
Fixpoint span_digits (s : str) : str * str :=
  match s with
  | [] => ([], [])
  | c :: t =>
      if is_digit c then let '(ds, r) := span_digits t in (c :: ds, r)
      else ([], s)
  end.

(** The number a string of ASCII digits denotes. *)
Definition digits_value (ds : str) : N :=
  fold_left (fun a c => (10 * a + (c - 48))%N) ds 0%N.

Definition hex_value (c : char) : option N :=
  (if (48 <=? c) && (c <=? 57) then Some (c - 48)
   else if (97 <=? c) && (c <=? 102) then Some (c - 87)
   else if (65 <=? c) && (c <=? 70) then Some (c - 55)
   else None)%N.

(** The code unit of [\uXXXX]. *)
Definition hex4 (a b c d : char) : option N :=
  match hex_value a, hex_value b, hex_value c, hex_value d with
  | Some x, Some y, Some z, Some w => Some (((x * 16 + y) * 16 + z) * 16 + w)%N
  | _, _, _, _ => None
  end.

(** The character of a one-letter escape. *)
Definition simple_escape (c : char) : option char :=
  (if c =? 34 then Some 34          (* quotation mark *)
   else if c =? 92 then Some 92     (* backslash *)
   else if c =? 47 then Some 47     (* solidus *)
   else if c =? 98 then Some 8      (* b: backspace *)
   else if c =? 102 then Some 12    (* f: form feed *)
   else if c =? 110 then Some 10    (* n: line feed *)
   else if c =? 114 then Some 13    (* r: carriage return *)
   else if c =? 116 then Some 9     (* t: tab *)
   else None)%N.

(** One element of a string literal: a character, or the code unit of a
    [\uXXXX] escape. *)
Inductive item : Type :=
| Lit (c : char)
| Esc (u : N).

(** The body of a string literal, after its opening quote, up to and
    including the closing quote.  Control characters are refused
    (strict mode). *)
Fixpoint scan_items (s : str) (acc : list item) : scan (list item) :=
  match s with
  | [] => Invalid
  | c :: t =>
      if (c =? 34)%N then Scanned (rev acc) t
      else if (c =? 92)%N then
        match t with
        | [] => Invalid
        | e :: t' =>
            if (e =? 117)%N then
              match t' with
              | h1 :: h2 :: h3 :: h4 :: t'' =>
                  match hex4 h1 h2 h3 h4 with
                  | Some u => scan_items t'' (Esc u :: acc)
                  | None => Invalid
                  end
              | _ => Invalid
              end
            else
              match simple_escape e with
              | Some x => scan_items t' (Lit x :: acc)
              | None => Invalid
              end
        end
      else if (c <? 32)%N then Invalid
      else scan_items t (Lit c :: acc)
  end.

Definition is_high_surrogate (u : N) : bool := ((55296 <=? u) && (u <=? 56319))%N.
Definition is_low_surrogate (u : N) : bool := ((56320 <=? u) && (u <=? 57343))%N.

(** An escaped high surrogate directly followed by an escaped low
    surrogate is one character; every other element stands for itself. *)
Fixpoint join_surrogates (l : list item) : str :=
  match l with
  | [] => []
  | Lit c :: t => c :: join_surrogates t
  | Esc u :: t =>
      match t with
      | Esc u2 :: t' =>
          if is_high_surrogate u && is_low_surrogate u2
          then (65536 + (u - 55296) * 1024 + (u2 - 56320))%N :: join_surrogates t'
          else u :: join_surrogates t
      | _ => u :: join_surrogates t
      end
  end.

(** [scanstring]: the string literal whose opening quote was just read. *)
Definition scanstring (s : str) : scan str :=
  match scan_items s [] with
  | Scanned l rest => Scanned (join_surrogates l) rest
  | Invalid => Invalid
  | Exhausted => Exhausted
  end.

(** A number literal at the head of [s]: an [int] when it has neither
    fraction nor exponent, a [float] otherwise. *)
Definition match_number (s : str) : scan pyval :=
  let '(negative, s1) :=
    match s with
    | c :: t => if (c =? 45)%N then (true, t) else (false, s)
    | [] => (false, s)
    end in
  match s1 with
  | [] => Invalid
  | c :: t =>
      if negb (is_digit c) then Invalid
      else
        let '(int_digits, r) :=
          if (c =? 48)%N then ([c], t)
          else let '(ds, r0) := span_digits t in (c :: ds, r0) in
        let '(frac, r1) :=
          match r with
          | p :: f :: r' =>
              if (p =? 46)%N && is_digit f
              then let '(fs, r'') := span_digits r' in (f :: fs, r'')
              else ([], r)
          | _ => ([], r)
          end in
        let '(exponent, r2) :=
          match r1 with
          | e :: x :: r' =>
              if (e =? 101)%N || (e =? 69)%N then
                let '(exp_negative, body) :=
                  if (x =? 45)%N then (true, r')
                  else if (x =? 43)%N then (false, r')
                  else (false, x :: r') in
                match span_digits body with
                | ([], _) => (None, r1)
                | (ds, r'') =>
                    let v := Z.of_N (digits_value ds) in
                    (Some (if exp_negative then - v else v), r'')
                end
              else (None, r1)
          | _ => (None, r1)
          end in
        match frac, exponent with
        | [], None =>
            let v := Z.of_N (digits_value int_digits) in
            Scanned (PInt (if negative then - v else v)) r2
        | _, _ =>
            let e := match exponent with Some x => x | None => 0 end in
            Scanned
              (PFloat (float_of_decimal negative
                         (digits_value (int_digits ++ frac))
                         (e - len frac)))
              r2
        end
  end.

(** [s] with the literal [p] removed from its head. *)
Fixpoint after (p s : str) : option str :=
  match p, s with
  | [], _ => Some s
  | x :: p', y :: s' => if N.eqb x y then after p' s' else None
  | _ :: _, [] => None
  end.

(** [scan_once]: one JSON value at the head of [s], with the loops over
    the members of an object and the elements of an array.  [fuel]
    bounds the nesting depth. *)
Fixpoint scan_once (fuel : nat) (s : str) : scan pyval :=
  match fuel with
  | O => Exhausted
  | S fuel' =>
      match s with
      | [] => Invalid
      | c :: t =>
          if (c =? 34)%N then
            match scanstring t with
            | Scanned x rest => Scanned (PStr x) rest
            | Invalid => Invalid
            | Exhausted => Exhausted
            end
          else if (c =? 123)%N then
            match skip_ws t with
            | [] => Invalid
            | c' :: t' =>
                if (c' =? 125)%N then Scanned (PDict []) t'
                else parse_members fuel' (c' :: t') []
            end
          else if (c =? 91)%N then
            match skip_ws t with
            | [] => Invalid
            | c' :: t' =>
                if (c' =? 93)%N then Scanned (PList []) t'
                else parse_elements fuel' (c' :: t') []
            end
          else
            match after (py "null") s, after (py "true") s, after (py "false") s with
            | Some r, _, _ => Scanned PNone r
            | _, Some r, _ => Scanned (PBool true) r
            | _, _, Some r => Scanned (PBool false) r
            | None, None, None =>
                match after (py "NaN") s, after (py "Infinity") s,
                      after (py "-Infinity") s with
                | Some r, _, _ => Scanned (PFloat FNaN) r
                | _, Some r, _ => Scanned (PFloat (FInf false)) r
                | _, _, Some r => Scanned (PFloat (FInf true)) r
                | None, None, None => match_number s
                end
            end
      end
  end

with parse_members (fuel : nat) (s : str) (acc : dict) : scan pyval :=
  match fuel with
  | O => Exhausted
  | S fuel' =>
      match s with
      | [] => Invalid
      | c :: t =>
          if negb (c =? 34)%N then Invalid
          else
            match scanstring t with
            | Scanned key r1 =>
                match skip_ws r1 with
                | [] => Invalid
                | c2 :: r2 =>
                    if negb (c2 =? 58)%N then Invalid
                    else
                      match scan_once fuel' (skip_ws r2) with
                      | Scanned v r3 =>
                          let acc' := dict_set acc key v in
                          match skip_ws r3 with
                          | [] => Invalid
                          | c3 :: r4 =>
                              if (c3 =? 125)%N then Scanned (PDict acc') r4
                              else if (c3 =? 44)%N
                              then parse_members fuel' (skip_ws r4) acc'
                              else Invalid
                          end
                      | Invalid => Invalid
                      | Exhausted => Exhausted
                      end
                end
            | Invalid => Invalid
            | Exhausted => Exhausted
            end
      end
  end

with parse_elements (fuel : nat) (s : str) (acc : list pyval) : scan pyval :=
  match fuel with
  | O => Exhausted
  | S fuel' =>
      match scan_once fuel' s with
      | Scanned v r1 =>
          match skip_ws r1 with
          | [] => Invalid
          | c :: r2 =>
              if (c =? 93)%N then Scanned (PList (rev (v :: acc))) r2
              else if (c =? 44)%N
              then parse_elements fuel' (skip_ws r2) (v :: acc)
              else Invalid
          end
      | Invalid => Invalid
      | Exhausted => Exhausted
      end
  end.

(** The document [s] decoded: one value, surrounded by optional
    whitespace and nothing else.  The budget [2 + 2 * len(s)] is never
    exhausted (lemma [json_decode_budget]). *)
Definition json_decode (s : str) : option pyval :=
  match scan_once (2 + 2 * List.length s) (skip_ws s) with
  | Scanned v rest =>
      match skip_ws rest with
      | [] => Some v
      | _ :: _ => None
      end
  | Invalid => None
  | Exhausted => None
  end.

(** [json.loads(s)]: the decoded document, [JSONDecodeError] when [s]
    is not valid JSON, or the exception of the limit that stops the
    decoder. *)
Definition json_loads (I : interpreter) (s : str) : result pyval :=
  match decoder_fault I s with
  | Some f => Raise (fault_exn f)
  | None =>
      match json_decode s with
      | Some v => Ok v
      | None => Raise JSONDecodeError
      end
  end.

(** ** [int(v)] *)

(** First code points of the runs of ten decimal digits beyond ASCII
    (Unicode 15 general category Nd); the mathematical digits
    U+1D7CE..U+1D7FF form five consecutive runs. *)
Definition decimal_runs : list N :=
  [1632; 1776; 1984; 2406; 2534; 2662; 2790; 2918; 3046; 3174; 3302;
   3430; 3558; 3664; 3792; 3872; 4160; 4240; 6112; 6160; 6470; 6608;
   6784; 6800; 6992; 7088; 7232; 7248; 42528; 43216; 43264; 43472;
   43504; 43600; 44016; 65296; 66720; 68912; 69734; 69872; 69942;
   70096; 70384; 70736; 70864; 71248; 71360; 71472; 71904; 72016;
   72784; 73040; 73120; 73552; 92768; 92864; 93008; 120782; 120792;
   120802; 120812; 120822; 123200; 123632; 124144; 125264; 130032]%N.

(** The digit a non-ASCII code point denotes, if it is a decimal digit. *)
Definition unicode_decimal (c : char) : option N :=
  match find (fun b => (b <=? c) && (c <? b + 10))%N decimal_runs with
  | Some b => Some (c - b)%N
  | None => None
  end.

(** What [int] does to the characters of its argument before reading
    it: whitespace beyond ASCII becomes a space, a decimal digit beyond
    ASCII becomes its ASCII digit, and any other character from U+007F
    on becomes a question mark, which no number contains. *)
Definition to_ascii_decimal (c : char) : char :=
  (if c <? 127 then c
   else if isspace c then 32
   else match unicode_decimal c with
        | Some d => 48 + d
        | None => 63
        end)%N.

(** The whitespace [int] skips around the number (C [isspace]). *)
Definition is_c_space (c : char) : bool :=
  ((9 <=? c) && (c <=? 13) || (c =? 32))%N.

Fixpoint skip_c_space (s : str) : str :=
  match s with
  | [] => []
  | c :: t => if is_c_space c then skip_c_space t else s
  end.

(** Decimal digits, with single underscores allowed between them;
    [after_underscore] tells that the previous character was one.
    Returns the number read, how many digits it has, and what follows. *)
Fixpoint long_digits (s : str) (after_underscore : bool) (acc : Z) (digits : N)
  : option (Z * N * str) :=
  match s with
  | [] => if after_underscore then None else Some (acc, digits, [])
  | c :: t =>
      if is_digit c
      then long_digits t false (10 * acc + (Z.of_N c - 48)) (digits + 1)%N
      else if (c =? 95)%N then
        if after_underscore then None else long_digits t true acc digits
      else if after_underscore then None else Some (acc, digits, s)
  end.

(** [int(s)] for a [str], base ten. *)
Definition int_of_str (I : interpreter) (s : str) : result Z :=
  let a := skip_c_space (map to_ascii_decimal s) in
  let '(negative, b) :=
    match a with
    | c :: t =>
        if (c =? 45)%N then (true, t)
        else if (c =? 43)%N then (false, t)
        else (false, a)
    | [] => (false, a)
    end in
  match b with
  | [] => Raise ValueError
  | c :: _ =>
      if negb (is_digit c) then Raise ValueError
      else
        match long_digits b false 0 0%N with
        | Some (n, digits, r) =>
            if exceeds_digit_limit I digits then Raise ValueError
            else
              match skip_c_space r with
              | [] => Ok (if negative then - n else n)
              | _ :: _ => Raise ValueError
              end
        | None => Raise ValueError
        end
  end.

(** [int(v)] for a decoded JSON value. *)
Definition py_int (I : interpreter) (v : pyval) : result Z :=
  match v with
  | PInt n => Ok n
  | PBool b => Ok (if b then 1 else 0)
  | PFloat f => float_trunc f
  | PStr s => int_of_str I s
  | PNone => Raise TypeError
  | PList _ => Raise TypeError
  | PDict _ => Raise TypeError
  end.

(** ** [re.search(r'\{.*\}', s, re.DOTALL)]

    With dot matching every character, the leftmost match starts at the
    first opening brace and, being greedy, ends at the last closing
    brace after it; there is no match when no closing brace follows the
    first opening one. *)

(** The suffix of [s] that starts at its first opening brace. *)
Fixpoint from_first_open (s : str) : option str :=
  match s with
  | [] => None
  | c :: t => if (c =? 123)%N then Some s else from_first_open t
  end.

(** The longest prefix of [s] that ends with a closing brace. *)
Fixpoint upto_last_close (s : str) : option str :=
  match s with
  | [] => None
  | c :: t =>
      match upto_last_close t with
      | Some p => Some (c :: p)
      | None => if (c =? 125)%N then Some [c] else None
      end
  end.

(** [json_match.group()], or [None] when the search finds nothing. *)
Definition search_braces (s : str) : option str :=
  match from_first_open s with
  | Some (c :: t) =>
      match upto_last_close t with
      | Some p => Some (c :: p)
      | None => None
      end
  | _ => None
  end.

(** ** [create_fake_news_analysis_prompt] (app.py, lines 34-63) *)

(** A quoted word of the template. *)
Definition quoted (s : string) : str := 34%N :: py s ++ [34%N].

(** One line of the template, with its line feed. *)
Definition line (s : str) : str := s ++ [10%N].

Definition create_fake_news_analysis_prompt (article_text : str) : str :=
  line [] ++
  line (py "You are an expert fact-checker and media analyst specializing in detecting fake news and misinformation. ") ++
  line (py "Analyze the following news article text for credibility, authenticity, and potential misinformation.") ++
  line [] ++
  line (py "Please analyze these aspects:") ++
  line (py "1. Source credibility and attribution") ++
  line (py "2. Factual accuracy and verifiable claims") ++
  line (py "3. Emotional manipulation and sensational language") ++
  line (py "4. Missing context or supporting evidence") ++
  line (py "5. Logical consistency and coherence") ++
  line (py "6. Signs of propaganda or deliberate misinformation") ++
  line [] ++
  line (py "Article Text:") ++
  line article_text ++
  line [] ++
  line (py "Please provide your analysis in the following JSON format:") ++
  line (py "{") ++
  line (py "    " ++ quoted "credibility_score" ++ py ": [number from 0-10],") ++
  line (py "    " ++ quoted "verdict" ++ py ": " ++ quoted "[CREDIBLE/SUSPICIOUS/FAKE/MIXED]" ++ py ",") ++
  line (py "    " ++ quoted "confidence" ++ py ": [number from 0-100],") ++
  line (py "    " ++ quoted "analysis" ++ py ": " ++ quoted "[detailed explanation of your findings]" ++ py ",") ++
  line (py "    " ++ quoted "red_flags" ++ py ": " ++ quoted "[main credibility concerns]" ++ py ",") ++
  line (py "    " ++ quoted "credibility_factors" ++ py ": " ++ quoted "[positive credibility indicators]" ++ py ",") ++
  line (py "    " ++ quoted "verification_tips" ++ py ": " ++ quoted "[suggestions for fact-checking]") ++
  line (py "}") ++
  line [] ++
  line (py "IMPORTANT: Return ONLY the JSON object, no additional text before or after.").

Arguments create_fake_news_analysis_prompt : simpl never.

(** ** [extract_json_from_response] (app.py, lines 66-87) *)

(** The record returned when nothing can be decoded (lines 79-87). *)
Definition fallback (response_text : str) : pyval :=
  PDict
    [ (py "credibility_score", PInt 0);
      (py "verdict", PStr (py "UNKNOWN"));
      (py "confidence", PInt 50);
      (py "analysis",
         PStr (if str_truthy (strip response_text)
               then strip response_text
               else py "Unable to analyze the article."));
      (py "red_flags", PStr (py "Response parsing failed"));
      (py "credibility_factors", PStr (py "Unable to assess"));
      (py "verification_tips", PStr (py "Please try again with a different article")) ].

Definition extract_json_from_response (I : interpreter) (response_text : str)
  : result pyval :=
  match json_loads I (strip response_text) with
  | Ok v => Ok v
  | Raise JSONDecodeError =>
      match search_braces response_text with
      | Some json_match =>
          match json_loads I json_match with
          | Ok v => Ok v
          | Raise JSONDecodeError => Ok (fallback response_text)
          | Raise e => Raise e
          end
      | None => Ok (fallback response_text)
      end
  | Raise e => Raise e
  end.

(** ** [validate_article_text] (app.py, lines 90-101) *)

Definition validate_article_text (text : str) : bool * str :=
  if negb (str_truthy text) || negb (str_truthy (strip text)) then
    (false, py "Article text cannot be empty")
  else if len (strip text) <? 10 then
    (false, py "Article text is too short for meaningful analysis")
  else if len (strip text) >? 50000 then
    (false, py "Article text is too long (maximum 50,000 characters)")
  else
    (true, py "").


(** ** The [/analyze] endpoint (app.py, lines 114-174) *)

(** What the handler reads from the Flask request: [request.is_json],
    and the value of [request.get_json()], which raises [BadRequest]
    when the body is not a JSON document. *)
Record request : Type := mkRequest {
  is_json : bool;
  get_json : result pyval
}.

(** What [model.generate_content(prompt)] can do: raise; return an
    object that is false; return a response whose [text] accessor
    raises; or return a response whose [text] is [None] or a [str]. *)
Inductive generation : Type :=
| GenRaises
| GenFalsy
| GenTextRaises
| GenText (text : option str).

(** The model client: the outcome of a call, for each prompt. *)
Definition model_client := str -> generation.

(** The calls the handler makes on its way, in order. *)
Inductive event : Type :=
| CallModel (prompt : str)
| CallExtract (response_text : str).

(** An HTTP response: the status and the JSON body given to [jsonify]. *)
Record response : Type := mkResponse {
  status : Z;
  body : pyval
}.

Definition error_body (message : str) : pyval :=
  PDict [(py "error", PStr message)].

(** Computations that record their calls and may raise. *)
Definition M (A : Type) : Type := list event * result A.

Definition ret {A : Type} (a : A) : M A := ([], Ok a).

Definition raise {A : Type} (e : exn) : M A := ([], Raise e).

Definition lift {A : Type} (r : result A) : M A := ([], r).

Definition emit (ev : event) : M unit := ([ev], Ok tt).

Definition bind {A B : Type} (m : M A) (f : A -> M B) : M B :=
  match m with
  | (tr, Ok a) => let '(tr', r) := f a in (tr ++ tr', r)
  | (tr, Raise e) => (tr, Raise e)
  end.

(** [try: m  except Exception: handler]. *)
Definition try_except {A : Type} (m : M A) (handler : exn -> M A) : M A :=
  match m with
  | (tr, Ok a) => (tr, Ok a)
  | (tr, Raise e) => let '(tr', r) := handler e in (tr ++ tr', r)
  end.

Notation "x <- m ;; k" := (bind m (fun x => k))
  (at level 61, m at next level, right associativity).
Notation "m ;;; k" := (bind m (fun _ => k))
  (at level 61, right associativity).

(** Lines 139-142: the call of the model and the test of its answer.
    Returns [response.text] when it is a non-empty [str]. *)
Definition call_model (model : model_client) (prompt : str) : M str :=
  emit (CallModel prompt) ;;;
  match model prompt with
  | GenRaises => raise ApiFailure
  | GenFalsy => raise EmptyResponse
  | GenTextRaises => raise ValueError
  | GenText None => raise EmptyResponse
  | GenText (Some text) =>
      if str_truthy text then ret text else raise EmptyResponse
  end.

(** Lines 155-163: the [result] dictionary built from the extracted
    value; its entries are evaluated in order. *)
Definition normalize (I : interpreter) (analysis_result : pyval) : result pyval :=
  let* score_value := py_get analysis_result (py "credibility_score") (PInt 0) in
  let* score := py_int I score_value in
  let* verdict := py_get analysis_result (py "verdict") (PStr (py "UNKNOWN")) in
  let* confidence_value := py_get analysis_result (py "confidence") (PInt 50) in
  let* confidence := py_int I confidence_value in
  let* analysis :=
    py_get analysis_result (py "analysis") (PStr (py "Analysis completed")) in
  let* red_flags :=
    py_get analysis_result (py "red_flags")
      (PStr (py "No major red flags identified")) in
  let* credibility_factors :=
    py_get analysis_result (py "credibility_factors")
      (PStr (py "Standard credibility markers present")) in
  let* verification_tips :=
    py_get analysis_result (py "verification_tips")
      (PStr (py "Cross-check with multiple reliable sources")) in
  Ok (PDict
        [ (py "credibility_score", PInt (Z.min 10 (Z.max 0 score)));
          (py "verdict", verdict);
          (py "confidence", PInt (Z.min 100 (Z.max 0 confidence)));
          (py "analysis", analysis);
          (py "red_flags", red_flags);
          (py "credibility_factors", credibility_factors);
          (py "verification_tips", verification_tips) ]).

(** Lines 153-170: extraction and normalisation, with their handler. *)
Definition parse_response (I : interpreter) (response_text : str) : M response :=
  try_except
    (emit (CallExtract response_text) ;;;
     analysis_result <- lift (extract_json_from_response I response_text) ;;
     result <- lift (normalize I analysis_result) ;;
     ret (mkResponse 200 result))
    (fun _ =>
       ret (mkResponse 500
              (error_body (py "Failed to parse analysis results. Please try again.")))).

(** Lines 132-170: what the handler does with a validated article. *)
Definition analyze_article (I : interpreter) (model : model_client)
    (article_text : str) : M response :=
  let prompt := create_fake_news_analysis_prompt article_text in
  match call_model model prompt with
  | (tr, Raise _) =>
      (tr, Ok (mkResponse 503
                 (error_body (py "AI analysis service is temporarily unavailable. Please try again later."))))
  | (tr, Ok response_text) =>
      let '(tr', r) := parse_response I response_text in (tr ++ tr', r)
  end.

(** Lines 118-170: the body of the outer [try]. *)
Definition analyze_body (I : interpreter) (model : model_client) (req : request)
  : M response :=
  if negb (is_json req) then
    ret (mkResponse 400 (error_body (py "Content-Type must be application/json")))
  else
    data <- lift (get_json req) ;;
    if negb (truthy data) then
      ret (mkResponse 400 (error_body (py "No JSON data provided")))
    else
      text <- lift (py_get data (py "text") (PStr (py ""))) ;;
      article_text <- lift (py_strip text) ;;
      let '(is_valid, error_message) := validate_article_text article_text in
      if negb is_valid then
        ret (mkResponse 400 (error_body error_message))
      else
        analyze_article I model article_text.

(** The handler: the calls it made and the response it sends. *)
Definition analyze_authenticity (I : interpreter) (model : model_client)
    (req : request) : list event * response :=
  match analyze_body I model req with
  | (tr, Ok resp) => (tr, resp)
  | (tr, Raise _) =>
      (tr, mkResponse 500
             (error_body (py "An unexpected error occurred. Please try again.")))
  end.

(** The response alone. *)
Definition respond (I : interpreter) (model : model_client) (req : request)
  : response :=
  snd (analyze_authenticity I model req).

(** The model was called while handling the request. *)
Definition calls_model (tr : list event) : bool :=
  existsb (fun ev => match ev with CallModel _ => true | _ => false end) tr.

(** The extractor was called while handling the request. *)
Definition calls_extract (tr : list event) : bool :=
  existsb (fun ev => match ev with CallExtract _ => true | _ => false end) tr.

(** ** Vocabulary of the properties *)

(** The seven fields of an analysis result. *)
Definition result_fields : list str :=
  [ py "credibility_score"; py "verdict"; py "confidence"; py "analysis";
    py "red_flags"; py "credibility_factors"; py "verification_tips" ].

Definition has_key (d : dict) (k : str) : bool :=
  match dict_get d k with
  | Some _ => true
  | None => false
  end.

(** A record that has the seven fields. *)
Definition is_analysis_result (v : pyval) : bool :=
  match v with
  | PDict d => forallb (has_key d) result_fields
  | _ => false
  end.

(** The text has an opening or a closing brace. *)
Definition has_brace (s : str) : bool :=
  existsb (fun c => (c =? 123)%N || (c =? 125)%N) s.

(** The second attempt of the extractor: the brace span decoded; no
    span counts as a span that is not valid JSON. *)
Definition json_of_braces (I : interpreter) (s : str) : result pyval :=
  match search_braces s with
  | Some json_match => json_loads I json_match
  | None => Raise JSONDecodeError
  end.

(** The decoder stops on no limit while the extractor works on [s]:
    neither on the trimmed text nor on the brace span. *)
Definition no_decoder_fault (I : interpreter) (s : str) : Prop :=
  decoder_fault I (strip s) = None /\
  forall json_match,
    search_braces s = Some json_match -> decoder_fault I json_match = None.

(** [int(v)] succeeds. *)
Definition coercible (I : interpreter) (v : pyval) : bool :=
  match py_int I v with
  | Ok _ => true
  | Raise _ => false
  end.

(** The outcome of the model call is one the handler refuses: an
    exception, or no text, or an empty text. *)
Definition unavailable (g : generation) : bool :=
  match g with
  | GenText (Some text) => negb (str_truthy text)
  | _ => true
  end.

(** A request that passes validation: JSON content, a JSON object as
    body, and under its key [text] a string the validator accepts. *)
Definition valid_request (req : request) (text : str) : Prop :=
  is_json req = true /\
  exists d,
    get_json req = Ok (PDict d) /\
    dict_get d (py "text") = Some (PStr text) /\
    fst (validate_article_text text) = true.

Definition unavailable_response : response :=
  mkResponse 503
    (error_body (py "AI analysis service is temporarily unavailable. Please try again later.")).

Definition parse_failure_response : response :=
  mkResponse 500
    (error_body (py "Failed to parse analysis results. Please try again.")).

Definition unexpected_error_response : response :=
  mkResponse 500
    (error_body (py "An unexpected error occurred. Please try again.")).

(** The fixed text of the prompt before the article, and after it. *)
Definition prompt_header : str :=
  firstn 516 (create_fake_news_analysis_prompt []).

Definition prompt_footer : str :=
  skipn 516 (create_fake_news_analysis_prompt []).

(** The keys of a [dict], in order. *)
Definition keys (d : dict) : list str := map fst d.

(** ** JSON texts of records

    The grammar of RFC 8259 for an object whose values are integers and
    strings, as a relation between a text and the record it denotes.
    It is stated without reference to the decoder, which is compared
    with it. *)

(** White space between the tokens. *)
Definition json_ws (w : str) : Prop := forallb is_json_ws w = true.

(** The characters between the quotation marks of a string literal, and
    the elements they denote: a character other than the quotation
    mark, the backslash and the control characters stands for itself; a
    backslash introduces a one-letter escape or [uXXXX]. *)
Inductive string_body : str -> list item -> Prop :=
| body_end : string_body [] []
| body_char (c : char) (b : str) (l : list item) :
    (c <? 32)%N = false -> (c =? 34)%N = false -> (c =? 92)%N = false ->
    string_body b l ->
    string_body (c :: b) (Lit c :: l)
| body_escape (e x : char) (b : str) (l : list item) :
    simple_escape e = Some x ->
    string_body b l ->
    string_body (92%N :: e :: b) (Lit x :: l)
| body_unicode (h1 h2 h3 h4 : char) (u : N) (b : str) (l : list item) :
    hex4 h1 h2 h3 h4 = Some u ->
    string_body b l ->
    string_body (92%N :: 117%N :: h1 :: h2 :: h3 :: h4 :: b) (Esc u :: l).

(** A string literal and the [str] it denotes. *)
Inductive string_literal : str -> str -> Prop :=
| string_quoted (b : str) (l : list item) :
    string_body b l ->
    string_literal (34%N :: b ++ [34%N]) (join_surrogates l).

(** An unsigned integer literal: a zero, or digits that do not start
    with a zero. *)
Inductive nat_literal : str -> N -> Prop :=
| nat_zero : nat_literal [48%N] 0%N
| nat_digits (c : char) (ds : str) :
    is_digit c = true -> (c =? 48)%N = false ->
    forallb is_digit ds = true ->
    nat_literal (c :: ds) (digits_value (c :: ds)).

(** An integer literal, with its optional minus sign. *)
Inductive int_literal : str -> Z -> Prop :=
| int_plain (lit : str) (n : N) :
    nat_literal lit n -> int_literal lit (Z.of_N n)
| int_minus (lit : str) (n : N) :
    nat_literal lit n -> int_literal (45%N :: lit) (- Z.of_N n).

(** The values of the schema: integers and strings. *)
Inductive value_literal : str -> pyval -> Prop :=
| value_int (lit : str) (n : Z) :
    int_literal lit n -> value_literal lit (PInt n)
| value_string (lit x : str) :
    string_literal lit x -> value_literal lit (PStr x).

(** A member [key : value]. *)
Inductive member_text : str -> str -> pyval -> Prop :=
| member_pair (klit k w1 w2 vlit : str) (v : pyval) :
    string_literal klit k -> json_ws w1 -> json_ws w2 ->
    value_literal vlit v ->
    member_text (klit ++ w1 ++ [58%N] ++ w2 ++ vlit) k v.

(** The members of an object, separated by commas, up to and including
    the closing brace. *)
Inductive members_text : str -> dict -> Prop :=
| members_last (m k w : str) (v : pyval) :
    member_text m k v -> json_ws w ->
    members_text (m ++ w ++ [125%N]) [(k, v)]
| members_more (m k w1 w2 rest : str) (v : pyval) (d : dict) :
    member_text m k v -> json_ws w1 -> json_ws w2 ->
    members_text rest d ->
    members_text (m ++ w1 ++ [44%N] ++ w2 ++ rest) ((k, v) :: d).

(** An object with at least one member, and its members in the order
    of the text. *)
Inductive object_text : str -> dict -> Prop :=
| object_braces (w ms : str) (d : dict) :
    json_ws w -> members_text ms d ->
    object_text (123%N :: w ++ ms) d.

Definition is_int (v : pyval) : bool :=
  match v with
  | PInt _ => true
  | _ => false
  end.

(** The record has exactly the seven fields, each once, in any order:
    integers under [credibility_score] and [confidence], strings under
    the five others. *)
Definition matches_schema (d : dict) : Prop :=
  Permutation (keys d) result_fields /\
  forall key v,
    dict_get d key = Some v ->
    if str_eqb key (py "credibility_score") || str_eqb key (py "confidence")
    then is_int v = true
    else is_str v = true.

(** The type the schema gives to the value under [key]. *)
Definition field_typed (key : str) (v : pyval) : bool :=
  if str_eqb key (py "credibility_score") || str_eqb key (py "confidence")
  then is_int v
  else is_str v.

(** The members [d] assigned one after the other to the record [acc]. *)
Definition dict_extend (acc d : dict) : dict :=
  fold_left (fun a kv => dict_set a (fst kv) (snd kv)) d acc.

(** A character that can follow a value inside an object. *)
Definition ends_value (c : char) : bool :=
  (is_json_ws c || (c =? 44) || (c =? 125))%N.

(** A character no string contains unescaped and no number contains. *)
Definition plain (c : char) : bool :=
  (negb (c <? 32) && negb (c =? 34) && negb (c =? 92))%N.

(** ** Sample inputs *)

(** An interpreter that meets no limit while decoding, with the digit
    limit that CPython has by default since 3.11. *)
Definition roomy : interpreter := mkInterpreter (fun _ => None) 4300.

(** The length of the longest run of ASCII digits in a text. *)
Fixpoint longest_digit_run_from (s : str) (current best : N) : N :=
  match s with
  | [] => N.max current best
  | c :: t =>
      if is_digit c then longest_digit_run_from t (current + 1)%N best
      else longest_digit_run_from t 0%N (N.max current best)
  end.

Definition longest_digit_run (s : str) : N := longest_digit_run_from s 0 0.

(** An interpreter with the same digit limit whose decoder stops on it
    when the text has more than 4300 digits in a row.  It stands for
    CPython 3.11 on the sample texts below, where such a run is an
    integer literal. *)
Definition digit_limited : interpreter :=
  mkInterpreter
    (fun s => if (4300 <? longest_digit_run s)%N then Some DigitLimit else None)
    4300.

(** A model that answers every prompt the same way. *)
Definition constant_model (g : generation) : model_client := fun _ => g.

(** The request of a client that posts [{"text": text}] as JSON. *)
Definition post_text (text : str) : request :=
  mkRequest true (Ok (PDict [(py "text", PStr text)])).

Definition sample_article : str :=
  py "  Scientists say the moon is made of cheese.  ".

(** One member [key: value] of a JSON object, with a string value. *)
Definition member (key value : string) : str :=
  quoted key ++ py ": " ++ quoted value.

(** An answer of the model that is exactly the requested JSON object. *)
Definition sample_answer : str :=
  py " {" ++ quoted "credibility_score" ++ py ": 2, " ++
  member "verdict" "FAKE" ++ py ", " ++
  quoted "confidence" ++ py ": 95, " ++
  member "analysis" "No source is named." ++ py ", " ++
  member "red_flags" "Sensational claim" ++ py ", " ++
  member "credibility_factors" "None" ++ py ", " ++
  member "verification_tips" "Ask an astronomer" ++ py "} ".

(** The record [sample_answer] denotes. *)
Definition sample_record : dict :=
  [ (py "credibility_score", PInt 2);
    (py "verdict", PStr (py "FAKE"));
    (py "confidence", PInt 95);
    (py "analysis", PStr (py "No source is named."));
    (py "red_flags", PStr (py "Sensational claim"));
    (py "credibility_factors", PStr (py "None"));
    (py "verification_tips", PStr (py "Ask an astronomer")) ].

(** An answer that is the requested JSON object, with a score of 4301
    digits. *)
Definition long_score : str := repeat 49%N 4301.

Definition long_score_answer : str :=
  py "{" ++ quoted "credibility_score" ++ py ": " ++ long_score ++ py ", " ++
  member "verdict" "FAKE" ++ py ", " ++
  quoted "confidence" ++ py ": 95, " ++
  member "analysis" "No source is named." ++ py ", " ++
  member "red_flags" "Sensational claim" ++ py ", " ++
  member "credibility_factors" "None" ++ py ", " ++
  member "verification_tips" "Ask an astronomer" ++ py "}".

(** The record [long_score_answer] denotes. *)
Definition long_score_record : dict :=
  [ (py "credibility_score", PInt (Z.of_N (digits_value long_score)));
    (py "verdict", PStr (py "FAKE"));
    (py "confidence", PInt 95);
    (py "analysis", PStr (py "No source is named."));
    (py "red_flags", PStr (py "Sensational claim"));
    (py "credibility_factors", PStr (py "None"));
    (py "verification_tips", PStr (py "Ask an astronomer")) ].

(** An answer whose score is a word. *)
Definition vague_answer : str :=
  py "{" ++ member "credibility_score" "high" ++ py ", " ++
  quoted "confidence" ++ py ": 70}".

(* ================================================================== *)
(** * Part II.  Facts about the primitives and the handler's steps     *)
(* ================================================================== *)

(** Discharges [valid_request] on a concrete request by evaluation. *)
Ltac valid_by_evaluation :=
  split; [reflexivity | eexists; repeat split; reflexivity].

Lemma str_eqb_eq (a b : str) : str_eqb a b = true <-> a = b.
Proof.
  revert b. induction a as [|x a IH]; intros [|y b]; simpl;
    try (split; [discriminate | discriminate]); try tauto.
  rewrite andb_true_iff, N.eqb_eq, IH. split.
  - intros [-> ->]. reflexivity.
  - intros H. injection H as -> ->. now split.
Qed.

Lemma str_truthy_false (s : str) : str_truthy s = false <-> s = [].
Proof. destruct s; simpl; split; congruence. Qed.

Lemma len_zero (s : str) : len s = 0 <-> s = [].
Proof.
  unfold len. destruct s; simpl; split; try congruence; lia.
Qed.

Lemma len_nonneg (s : str) : 0 <= len s.
Proof. unfold len. lia. Qed.

(** *** Trimming *)

Lemma lstrip_head (s : str) :
  lstrip s = [] \/ exists c t, lstrip s = c :: t /\ isspace c = false.
Proof.
  induction s as [|c t IH]; simpl.
  - now left.
  - destruct (isspace c) eqn:Hc.
    + exact IH.
    + right. now exists c, t.
Qed.

Lemma lstrip_idem (s : str) : lstrip (lstrip s) = lstrip s.
Proof.
  destruct (lstrip_head s) as [H | (c & t & H & Hc)]; rewrite H; simpl.
  - reflexivity.
  - now rewrite Hc.
Qed.

Lemma rstrip_idem (s : str) : rstrip (rstrip s) = rstrip s.
Proof.
  induction s as [|c t IH]; simpl.
  - reflexivity.
  - destruct (rstrip t) as [|x r] eqn:Hr.
    + destruct (isspace c) eqn:Hc; simpl.
      * reflexivity.
      * now rewrite Hc.
    + change (rstrip (c :: x :: r)) with
        (match rstrip (x :: r) with
         | [] => if isspace c then [] else [c]
         | y :: r' => c :: y :: r'
         end).
      now rewrite IH.
Qed.

Lemma rstrip_keeps_head (c : char) (t : str) :
  isspace c = false -> exists r, rstrip (c :: t) = c :: r.
Proof.
  intros Hc. simpl. destruct (rstrip t) as [|x r].
  - rewrite Hc. now exists [].
  - now exists (x :: r).
Qed.

Lemma strip_idem (s : str) : strip (strip s) = strip s.
Proof.
  unfold strip.
  destruct (lstrip_head s) as [H | (c & t & H & Hc)]; rewrite H.
  - reflexivity.
  - destruct (rstrip_keeps_head c t Hc) as [r Hr].
    rewrite Hr. simpl lstrip. rewrite Hc. rewrite <- Hr.
    apply rstrip_idem.
Qed.

Lemma strip_nil : strip [] = [].
Proof. reflexivity. Qed.

(** The validator looks at its argument only through [strip]. *)
Lemma validate_article_text_strip (text : str) :
  validate_article_text (strip text) = validate_article_text text.
Proof.
  unfold validate_article_text. rewrite strip_idem.
  destruct text as [|c t].
  - reflexivity.
  - simpl str_truthy at 3. simpl negb at 3.
    now destruct (str_truthy (strip (c :: t))).
Qed.

(** *** The brace search *)

Lemma from_first_open_none (s : str) :
  existsb (fun c => (c =? 123)%N) s = false -> from_first_open s = None.
Proof.
  induction s as [|c t IH]; simpl; intros H.
  - reflexivity.
  - apply orb_false_iff in H as [Hc Ht]. rewrite Hc. now apply IH.
Qed.

Lemma upto_last_close_none (s : str) :
  existsb (fun c => (c =? 125)%N) s = false -> upto_last_close s = None.
Proof.
  induction s as [|c t IH]; simpl; intros H.
  - reflexivity.
  - apply orb_false_iff in H as [Hc Ht]. rewrite (IH Ht). now rewrite Hc.
Qed.

Lemma from_first_open_suffix (s r : str) :
  from_first_open s = Some r -> exists p, s = p ++ r.
Proof.
  revert r. induction s as [|c t IH]; simpl; intros r H.
  - discriminate.
  - destruct (c =? 123)%N.
    + injection H as <-. now exists [].
    + destruct (IH r H) as [p ->]. now exists (c :: p).
Qed.

(** A text without an opening brace, or without a closing one, has no
    match. *)
Lemma search_braces_none (s : str) :
  existsb (fun c => (c =? 123)%N) s = false \/
  existsb (fun c => (c =? 125)%N) s = false ->
  search_braces s = None.
Proof.
  unfold search_braces. intros [H | H].
  - now rewrite from_first_open_none.
  - destruct (from_first_open s) as [[|c t]|] eqn:Hf; try reflexivity.
    destruct (from_first_open_suffix _ _ Hf) as [p ->].
    rewrite existsb_app in H. apply orb_false_iff in H as [_ H].
    simpl in H. apply orb_false_iff in H as [_ H].
    now rewrite upto_last_close_none.
Qed.

(** *** The decoder consumes its input and never exhausts its budget *)

Lemma skip_ws_length (s : str) : (List.length (skip_ws s) <= List.length s)%nat.
Proof.
  induction s as [|c t IH]; simpl.
  - lia.
  - destruct (is_json_ws c); simpl; lia.
Qed.

Lemma skip_ws_cons_length (s : str) (c : char) (t : str) :
  skip_ws s = c :: t -> (List.length t < List.length s)%nat.
Proof.
  intros H. pose proof (skip_ws_length s) as L. rewrite H in L. simpl in L. lia.
Qed.

Lemma span_digits_length (s : str) :
  (List.length (snd (span_digits s)) <= List.length s)%nat.
Proof.
  induction s as [|c t IH]; simpl.
  - lia.
  - destruct (is_digit c); simpl.
    + destruct (span_digits t) as [ds r]. simpl in *. lia.
    + lia.
Qed.

Lemma after_length (p s r : str) :
  after p s = Some r -> (List.length r + List.length p = List.length s)%nat.
Proof.
  revert s r. induction p as [|x p IH]; intros [|y s] r H; simpl in *;
    try discriminate.
  - injection H as <-. simpl. lia.
  - injection H as <-. simpl. lia.
  - destruct (N.eqb x y); try discriminate. apply IH in H. lia.
Qed.

Lemma scan_items_length (n : nat) :
  forall s acc l r,
    (List.length s <= n)%nat ->
    scan_items s acc = Scanned l r -> (List.length r < List.length s)%nat.
Proof.
  induction n as [|n IH]; intros s acc l r Hn H.
  - destruct s; simpl in *; [discriminate | lia].
  - destruct s as [|c t]; simpl in H; [discriminate|].
    simpl in Hn.
    destruct (c =? 34)%N.
    { injection H as _ <-. simpl. lia. }
    destruct (c =? 92)%N.
    + destruct t as [|e t']; [discriminate|]. simpl in Hn.
      destruct (e =? 117)%N.
      * destruct t' as [|h1 [|h2 [|h3 [|h4 t'']]]]; try discriminate.
        destruct (hex4 h1 h2 h3 h4); [|discriminate].
        apply IH in H; simpl in *; lia.
      * destruct (simple_escape e); [|discriminate].
        apply IH in H; simpl in *; lia.
    + destruct (c <? 32)%N; [discriminate|].
      apply IH in H; simpl in *; lia.
Qed.

Lemma scanstring_length (s x r : str) :
  scanstring s = Scanned x r -> (List.length r < List.length s)%nat.
Proof.
  unfold scanstring. intros H.
  destruct (scan_items s []) as [l rest| |] eqn:E; try discriminate.
  injection H as _ <-.
  exact (scan_items_length (List.length s) s [] l rest (le_n _) E).
Qed.

Lemma scan_items_not_exhausted (n : nat) :
  forall s acc, (List.length s <= n)%nat -> scan_items s acc <> Exhausted.
Proof.
  induction n as [|n IH]; intros s acc Hn.
  - destruct s; simpl in *; [discriminate | lia].
  - destruct s as [|c t]; simpl; [discriminate|]. simpl in Hn.
    destruct (c =? 34)%N; [discriminate|].
    destruct (c =? 92)%N.
    + destruct t as [|e t']; [discriminate|]. simpl in Hn.
      destruct (e =? 117)%N.
      * destruct t' as [|h1 [|h2 [|h3 [|h4 t'']]]]; try discriminate.
        destruct (hex4 h1 h2 h3 h4); [|discriminate].
        apply IH. simpl in *. lia.
      * destruct (simple_escape e); [|discriminate].
        apply IH. lia.
    + destruct (c <? 32)%N; [discriminate|]. apply IH. lia.
Qed.

Lemma scanstring_not_exhausted (s : str) : scanstring s <> Exhausted.
Proof.
  unfold scanstring.
  pose proof (scan_items_not_exhausted (List.length s) s [] (le_n _)) as H.
  destruct (scan_items s []); congruence.
Qed.

Lemma match_number_length (s : str) (v : pyval) (r : str) :
  match_number s = Scanned v r -> (List.length r < List.length s)%nat.
Proof.
  unfold match_number.
  set (hd := match s with
             | c :: t => if (c =? 45)%N then (true, t) else (false, s)
             | [] => (false, s)
             end).
  assert (Hs : (List.length (snd hd) <= List.length s)%nat).
  { subst hd. destruct s as [|c t]; simpl; [lia|].
    destruct (c =? 45)%N; simpl; lia. }
  destruct hd as [negative s1]. simpl in Hs.
  destruct s1 as [|c t]; [discriminate|].
  destruct (is_digit c); simpl negb; cbv iota; [|discriminate].
  set (ip := if (c =? 48)%N then ([c], t)
             else let '(ds, r0) := span_digits t in (c :: ds, r0)).
  assert (Hip : (List.length (snd ip) <= List.length t)%nat).
  { subst ip. destruct (c =? 48)%N; simpl; [lia|].
    pose proof (span_digits_length t). destruct (span_digits t). simpl in *. lia. }
  destruct ip as [int_digits r0]. simpl in Hip.
  set (fp := match r0 with
             | p :: f :: r' =>
                 if (p =? 46)%N && is_digit f
                 then let '(fs, r'') := span_digits r' in (f :: fs, r'')
                 else ([], r0)
             | _ => ([], r0)
             end).
  assert (Hfp : (List.length (snd fp) <= List.length r0)%nat).
  { subst fp. destruct r0 as [|p [|f r']]; simpl; try lia.
    destruct ((p =? 46)%N && is_digit f); simpl; [|lia].
    pose proof (span_digits_length r'). destruct (span_digits r'). simpl in *. lia. }
  destruct fp as [frac r1]. simpl in Hfp.
  set (ep := match r1 with
             | e :: x :: r' =>
                 if (e =? 101)%N || (e =? 69)%N then
                   let '(exp_negative, body) :=
                     if (x =? 45)%N then (true, r')
                     else if (x =? 43)%N then (false, r')
                     else (false, x :: r') in
                   match span_digits body with
                   | ([], _) => (None, r1)
                   | (ds, r'') =>
                       let v := Z.of_N (digits_value ds) in
                       (Some (if exp_negative then - v else v), r'')
                   end
                 else (None, r1)
             | _ => (None, r1)
             end).
  assert (Hep : (List.length (snd ep) <= List.length r1)%nat).
  { subst ep. destruct r1 as [|e [|x r']]; simpl; try lia.
    destruct ((e =? 101)%N || (e =? 69)%N); simpl; [|lia].
    destruct (x =? 45)%N; [|destruct (x =? 43)%N].
    - pose proof (span_digits_length r').
      destruct (span_digits r') as [[|d ds] r'']; simpl in *; lia.
    - pose proof (span_digits_length r').
      destruct (span_digits r') as [[|d ds] r'']; simpl in *; lia.
    - pose proof (span_digits_length (x :: r')).
      destruct (span_digits (x :: r')) as [[|d ds] r'']; simpl in *; lia. }
  destruct ep as [exponent r2]. simpl in Hep.
  intros H.
  assert (r = r2).
  { destruct frac; destruct exponent; injection H; auto. }
  subst r. simpl in *. lia.
Qed.

Lemma match_number_not_exhausted (s : str) : match_number s <> Exhausted.
Proof.
  unfold match_number.
  destruct (match s with
            | c :: t => if (c =? 45)%N then (true, t) else (false, s)
            | [] => (false, s)
            end) as [negative s1].
  destruct s1 as [|c t]; [discriminate|].
  destruct (is_digit c); simpl negb; cbv iota; [|discriminate].
  destruct (if (c =? 48)%N then ([c], t)
            else let '(ds, r0) := span_digits t in (c :: ds, r0))
    as [int_digits r0].
  destruct (match r0 with
            | p :: f :: r' =>
                if (p =? 46)%N && is_digit f
                then let '(fs, r'') := span_digits r' in (f :: fs, r'')
                else ([], r0)
            | _ => ([], r0)
            end) as [frac r1].
  match goal with
  | |- (let '(exponent, r2) := ?e in _) <> _ => destruct e as [exponent r2]
  end.
  destruct frac; destruct exponent; discriminate.
Qed.

(** Every successful scan leaves strictly less input than it was given. *)
Lemma scan_consumes (fuel : nat) :
  (forall s v r,
     scan_once fuel s = Scanned v r -> (List.length r < List.length s)%nat) /\
  (forall s acc v r,
     parse_members fuel s acc = Scanned v r -> (List.length r < List.length s)%nat) /\
  (forall s acc v r,
     parse_elements fuel s acc = Scanned v r -> (List.length r < List.length s)%nat).
Proof.
  induction fuel as [|fuel (IHv & IHm & IHe)].
  { repeat split; intros; discriminate. }
  repeat split.
  - (* scan_once *)
    intros s v r H. cbn [scan_once] in H.
    destruct s as [|c t]; [discriminate|].
    destruct (c =? 34)%N.
    { destruct (scanstring t) as [x rest| |] eqn:E; try discriminate.
      injection H as _ <-. apply scanstring_length in E. simpl. lia. }
    destruct (c =? 123)%N.
    { destruct (skip_ws t) as [|c' t'] eqn:E; [discriminate|].
      pose proof (skip_ws_length t) as L. rewrite E in L. simpl in L.
      destruct (c' =? 125)%N.
      - injection H as _ <-. simpl. lia.
      - apply IHm in H. simpl in *. lia. }
    destruct (c =? 91)%N.
    { destruct (skip_ws t) as [|c' t'] eqn:E; [discriminate|].
      pose proof (skip_ws_length t) as L. rewrite E in L. simpl in L.
      destruct (c' =? 93)%N.
      - injection H as _ <-. simpl. lia.
      - apply IHe in H. simpl in *. lia. }
    destruct (after (py "null") (c :: t)) as [r1|] eqn:E1.
    { injection H as _ <-. apply after_length in E1. simpl in *. lia. }
    destruct (after (py "true") (c :: t)) as [r2|] eqn:E2.
    { injection H as _ <-. apply after_length in E2. simpl in *. lia. }
    destruct (after (py "false") (c :: t)) as [r3|] eqn:E3.
    { injection H as _ <-. apply after_length in E3. simpl in *. lia. }
    destruct (after (py "NaN") (c :: t)) as [r4|] eqn:E4.
    { injection H as _ <-. apply after_length in E4. simpl in *. lia. }
    destruct (after (py "Infinity") (c :: t)) as [r5|] eqn:E5.
    { injection H as _ <-. apply after_length in E5. simpl in *. lia. }
    destruct (after (py "-Infinity") (c :: t)) as [r6|] eqn:E6.
    { injection H as _ <-. apply after_length in E6. simpl in *. lia. }
    now apply match_number_length in H.
  - (* parse_members *)
    intros s acc v r H. cbn [parse_members] in H.
    destruct s as [|c t]; [discriminate|].
    destruct (c =? 34)%N; simpl negb in H; cbv iota in H; [|discriminate].
    destruct (scanstring t) as [key r1| |] eqn:E; try discriminate.
    apply scanstring_length in E.
    destruct (skip_ws r1) as [|c2 r2] eqn:E1; [discriminate|].
    apply skip_ws_cons_length in E1.
    destruct (c2 =? 58)%N; simpl negb in H; cbv iota in H; [|discriminate].
    destruct (scan_once fuel (skip_ws r2)) as [v' r3| |] eqn:E2; try discriminate.
    apply IHv in E2. pose proof (skip_ws_length r2) as L2.
    destruct (skip_ws r3) as [|c3 r4] eqn:E3; [discriminate|].
    apply skip_ws_cons_length in E3.
    destruct (c3 =? 125)%N.
    { injection H as _ <-. simpl. lia. }
    destruct (c3 =? 44)%N; [|discriminate].
    apply IHm in H. pose proof (skip_ws_length r4). simpl. lia.
  - (* parse_elements *)
    intros s acc v r H. cbn [parse_elements] in H.
    destruct (scan_once fuel s) as [v' r1| |] eqn:E; try discriminate.
    apply IHv in E.
    destruct (skip_ws r1) as [|c r2] eqn:E1; [discriminate|].
    apply skip_ws_cons_length in E1.
    destruct (c =? 93)%N.
    { injection H as _ <-. lia. }
    destruct (c =? 44)%N; [|discriminate].
    apply IHe in H. pose proof (skip_ws_length r2). lia.
Qed.

(** A budget of twice the length of the input, and two more, is never
    exhausted. *)
Lemma scan_budget (fuel : nat) :
  (forall s, (2 * List.length s + 1 <= fuel)%nat -> scan_once fuel s <> Exhausted) /\
  (forall s acc,
     (2 * List.length s + 1 <= fuel)%nat -> parse_members fuel s acc <> Exhausted) /\
  (forall s acc,
     (2 * List.length s + 2 <= fuel)%nat -> parse_elements fuel s acc <> Exhausted).
Proof.
  induction fuel as [|fuel (IHv & IHm & IHe)].
  { repeat split; intros; lia. }
  destruct (scan_consumes fuel) as (Cv & _ & _).
  repeat split.
  - intros s Hf. cbn [scan_once].
    destruct s as [|c t]; [discriminate|]. simpl in Hf.
    destruct (c =? 34)%N.
    { pose proof (scanstring_not_exhausted t).
      destruct (scanstring t); congruence. }
    destruct (c =? 123)%N.
    { destruct (skip_ws t) as [|c' t'] eqn:E; [discriminate|].
      pose proof (skip_ws_length t) as L. rewrite E in L.
      destruct (c' =? 125)%N; [discriminate|].
      apply IHm. simpl in *. lia. }
    destruct (c =? 91)%N.
    { destruct (skip_ws t) as [|c' t'] eqn:E; [discriminate|].
      pose proof (skip_ws_length t) as L. rewrite E in L.
      destruct (c' =? 93)%N; [discriminate|].
      apply IHe. simpl in *. lia. }
    destruct (after (py "null") (c :: t)); [discriminate|].
    destruct (after (py "true") (c :: t)); [discriminate|].
    destruct (after (py "false") (c :: t)); [discriminate|].
    destruct (after (py "NaN") (c :: t)); [discriminate|].
    destruct (after (py "Infinity") (c :: t)); [discriminate|].
    destruct (after (py "-Infinity") (c :: t)); [discriminate|].
    apply match_number_not_exhausted.
  - intros s acc Hf. cbn [parse_members].
    destruct s as [|c t]; [discriminate|]. simpl in Hf.
    destruct (c =? 34)%N; simpl negb; cbv iota; [|discriminate].
    pose proof (scanstring_not_exhausted t) as Hs.
    destruct (scanstring t) as [key r1| |] eqn:E; try congruence.
    apply scanstring_length in E.
    destruct (skip_ws r1) as [|c2 r2] eqn:E1; [discriminate|].
    apply skip_ws_cons_length in E1.
    destruct (c2 =? 58)%N; simpl negb; cbv iota; [|discriminate].
    pose proof (skip_ws_length r2) as L2.
    assert (Hv : scan_once fuel (skip_ws r2) <> Exhausted) by (apply IHv; lia).
    destruct (scan_once fuel (skip_ws r2)) as [v' r3| |] eqn:E2; try congruence.
    apply Cv in E2.
    destruct (skip_ws r3) as [|c3 r4] eqn:E3; [discriminate|].
    apply skip_ws_cons_length in E3.
    destruct (c3 =? 125)%N; [discriminate|].
    destruct (c3 =? 44)%N; [|discriminate].
    apply IHm. pose proof (skip_ws_length r4). lia.
  - intros s acc Hf. cbn [parse_elements].
    assert (Hv : scan_once fuel s <> Exhausted) by (apply IHv; lia).
    destruct (scan_once fuel s) as [v' r1| |] eqn:E; try congruence.
    apply Cv in E.
    destruct (skip_ws r1) as [|c r2] eqn:E1; [discriminate|].
    apply skip_ws_cons_length in E1.
    destruct (c =? 93)%N; [discriminate|].
    destruct (c =? 44)%N; [|discriminate].
    apply IHe. pose proof (skip_ws_length r2). lia.
Qed.

(** [json_decode] never runs out of budget: [None] always stands for a
    document that is not valid JSON. *)
Lemma json_decode_budget (s : str) :
  scan_once (2 + 2 * List.length s) (skip_ws s) <> Exhausted.
Proof.
  destruct (scan_budget (2 + 2 * List.length s)) as (Hv & _ & _).
  apply Hv. pose proof (skip_ws_length s). lia.
Qed.

Lemma json_decode_nil : json_decode [] = None.
Proof. reflexivity. Qed.

(** The three outcomes of [json_loads]. *)
Lemma json_loads_ok (I : interpreter) (s : str) (v : pyval) :
  json_loads I s = Ok v <-> decoder_fault I s = None /\ json_decode s = Some v.
Proof.
  unfold json_loads. destruct (decoder_fault I s) as [f|].
  - split; [discriminate | intros [H _]; discriminate].
  - destruct (json_decode s) as [x|]; split.
    + intros H. injection H as ->. now split.
    + intros [_ H]. now injection H as ->.
    + discriminate.
    + intros [_ H]. discriminate.
Qed.

Lemma json_loads_invalid (I : interpreter) (s : str) :
  json_loads I s = Raise JSONDecodeError <->
  decoder_fault I s = None /\ json_decode s = None.
Proof.
  unfold json_loads. destruct (decoder_fault I s) as [[|]|].
  - split; [discriminate | intros [H _]; discriminate].
  - split; [discriminate | intros [H _]; discriminate].
  - destruct (json_decode s); split; try discriminate; try (now split).
    intros [_ H]. discriminate.
Qed.

Lemma json_loads_raise (I : interpreter) (s : str) (e : exn) :
  json_loads I s = Raise e ->
  e = JSONDecodeError \/ exists f, decoder_fault I s = Some f /\ e = fault_exn f.
Proof.
  unfold json_loads. destruct (decoder_fault I s) as [f|].
  - intros H. injection H as <-. right. now exists f.
  - destruct (json_decode s); [discriminate|].
    intros H. injection H as <-. now left.
Qed.

(** *** The handler, step by step *)

Lemma bind_lift_ok {A B : Type} (a : A) (f : A -> M B) :
  bind (lift (Ok a)) f = f a.
Proof. unfold bind, lift. now destruct (f a). Qed.

Lemma bind_lift_raise {A B : Type} (e : exn) (f : A -> M B) :
  bind (lift (Raise e)) f = ([], Raise e).
Proof. reflexivity. Qed.

(** Extraction is called once, and its handler turns every exception of
    the extraction and of the normalisation into the parse-failure
    response. *)
Lemma parse_response_eq (I : interpreter) (response_text : str) :
  parse_response I response_text =
    ([CallExtract response_text],
     Ok (match (let* analysis_result :=
                   extract_json_from_response I response_text in
                 normalize I analysis_result) with
         | Ok r => mkResponse 200 r
         | Raise _ => parse_failure_response
         end)).
Proof.
  unfold parse_response, try_except, bind, emit, lift, ret, and_then.
  destruct (extract_json_from_response I response_text) as [a|e];
    [|reflexivity].
  now destruct (normalize I a).
Qed.

Lemma call_model_eq (model : model_client) (prompt : str) :
  call_model model prompt =
    ([CallModel prompt],
     match model prompt with
     | GenRaises => Raise ApiFailure
     | GenFalsy => Raise EmptyResponse
     | GenTextRaises => Raise ValueError
     | GenText None => Raise EmptyResponse
     | GenText (Some text) =>
         if str_truthy text then Ok text else Raise EmptyResponse
     end).
Proof.
  unfold call_model, bind, emit, raise, ret.
  destruct (model prompt) as [| | |[text|]]; try reflexivity.
  now destruct (str_truthy text).
Qed.

(** With the model unavailable, the article is answered by a 503 after
    the one call of the model. *)
Lemma analyze_article_unavailable
    (I : interpreter) (model : model_client) (article_text : str) :
  unavailable (model (create_fake_news_analysis_prompt article_text)) = true ->
  analyze_article I model article_text =
    ([CallModel (create_fake_news_analysis_prompt article_text)],
     Ok unavailable_response).
Proof.
  intros H. unfold analyze_article. rewrite call_model_eq.
  destruct (model (create_fake_news_analysis_prompt article_text))
    as [| | |[text|]]; try reflexivity.
  simpl in H. destruct (str_truthy text); [discriminate | reflexivity].
Qed.

(** With a non-empty answer of the model, the article is answered by
    what extraction and normalisation make of it. *)
Lemma analyze_article_text
    (I : interpreter) (model : model_client) (article_text text : str) :
  model (create_fake_news_analysis_prompt article_text) = GenText (Some text) ->
  str_truthy text = true ->
  analyze_article I model article_text =
    ([CallModel (create_fake_news_analysis_prompt article_text);
      CallExtract text],
     Ok (match (let* analysis_result := extract_json_from_response I text in
                 normalize I analysis_result) with
         | Ok r => mkResponse 200 r
         | Raise _ => parse_failure_response
         end)).
Proof.
  intros Hm Ht. unfold analyze_article.
  rewrite call_model_eq, Hm, Ht, parse_response_eq. reflexivity.
Qed.

Lemma dict_get_some_truthy (d : dict) (k : str) (v : pyval) :
  dict_get d k = Some v -> truthy (PDict d) = true.
Proof. destruct d; simpl; [discriminate | reflexivity]. Qed.

(** A request that passes validation is handled as its trimmed text. *)
Lemma analyze_body_valid
    (I : interpreter) (model : model_client) (req : request) (text : str) :
  valid_request req text ->
  analyze_body I model req = analyze_article I model (strip text).
Proof.
  intros (Hj & d & Hd & Hk & Hv).
  unfold analyze_body. rewrite Hj, Hd. simpl negb. cbv iota.
  rewrite bind_lift_ok, (dict_get_some_truthy d _ _ Hk). simpl negb. cbv iota.
  unfold py_get, field. rewrite Hk, bind_lift_ok.
  unfold py_strip. rewrite bind_lift_ok.
  rewrite validate_article_text_strip.
  destruct (validate_article_text text) as [is_valid message].
  simpl in Hv. subst is_valid. reflexivity.
Qed.

(** A text with a JSON document in it is not empty. *)
Lemma json_loads_some_truthy (I : interpreter) (text : str) (v : pyval) :
  json_loads I (strip text) = Ok v -> str_truthy text = true.
Proof.
  intros H. apply json_loads_ok in H as [_ H].
  destruct text; [discriminate | reflexivity].
Qed.

Lemma normalize_not_dict (I : interpreter) (v : pyval) :
  is_dict v = false -> normalize I v = Raise AttributeError.
Proof. destruct v; simpl; intros H; try reflexivity; discriminate. Qed.

Lemma has_brace_false (s : str) :
  has_brace s = false ->
  existsb (fun c => (c =? 123)%N) s = false /\
  existsb (fun c => (c =? 125)%N) s = false.
Proof.
  induction s as [|c t IH]; simpl; intros H.
  - now split.
  - apply orb_false_iff in H as [Hc Ht].
    apply orb_false_iff in Hc as [H1 H2].
    destruct (IH Ht) as [I1 I2]. now rewrite H1, H2, I1, I2.
Qed.

Lemma json_of_braces_no_brace (I : interpreter) (s : str) :
  has_brace s = false -> json_of_braces I s = Raise JSONDecodeError.
Proof.
  intros H. unfold json_of_braces.
  rewrite search_braces_none; [reflexivity|].
  left. now apply has_brace_false.
Qed.

Lemma extract_fallback_eq (I : interpreter) (response_text : str) :
  json_loads I (strip response_text) = Raise JSONDecodeError ->
  json_of_braces I response_text = Raise JSONDecodeError ->
  extract_json_from_response I response_text = Ok (fallback response_text).
Proof.
  unfold extract_json_from_response, json_of_braces. intros -> H.
  destruct (search_braces response_text) as [m|]; [|reflexivity].
  now rewrite H.
Qed.

Lemma extract_strict_eq (I : interpreter) (response_text : str) (v : pyval) :
  json_loads I (strip response_text) = Ok v ->
  extract_json_from_response I response_text = Ok v.
Proof.
  unfold extract_json_from_response. now intros ->.
Qed.

Lemma sample_request_valid : valid_request (post_text sample_article) sample_article.
Proof.
  split; [reflexivity|].
  exists [(py "text", PStr sample_article)]. repeat split; reflexivity.
Qed.

(** *** The decoder accepts the grammar of records *)

Lemma scan_items_body (b : str) (l : list item) :
  string_body b l ->
  forall rest acc, scan_items (b ++ 34%N :: rest) acc = Scanned (rev acc ++ l) rest.
Proof.
  induction 1 as [|c b l H1 H2 H3 _ IH|e x b l He _ IH|h1 h2 h3 h4 u b l Hh _ IH];
    intros rest acc.
  - simpl. now rewrite app_nil_r.
  - change ((c :: b) ++ 34%N :: rest) with (c :: (b ++ 34%N :: rest)).
    cbn [scan_items]. rewrite H2, H3, H1, IH. simpl rev.
    now rewrite <- app_assoc.
  - change ((92%N :: e :: b) ++ 34%N :: rest)
      with (92%N :: e :: (b ++ 34%N :: rest)).
    cbn [scan_items].
    change (92 =? 34)%N with false. change (92 =? 92)%N with true. cbv iota.
    destruct (N.eqb_spec e 117) as [->|_]; [discriminate|].
    rewrite He, IH. simpl rev. now rewrite <- app_assoc.
  - change ((92%N :: 117%N :: h1 :: h2 :: h3 :: h4 :: b) ++ 34%N :: rest)
      with (92%N :: 117%N :: h1 :: h2 :: h3 :: h4 :: (b ++ 34%N :: rest)).
    cbn [scan_items].
    change (92 =? 34)%N with false. change (92 =? 92)%N with true.
    change (117 =? 117)%N with true. cbv iota.
    rewrite Hh, IH. simpl rev. now rewrite <- app_assoc.
Qed.

Lemma scanstring_literal (lit x : str) :
  string_literal lit x ->
  exists t, lit = 34%N :: t /\ forall rest, scanstring (t ++ rest) = Scanned x rest.
Proof.
  intros [b l Hb]. exists (b ++ [34%N]). split; [reflexivity|].
  intros rest. unfold scanstring.
  rewrite <- app_assoc. change ([34%N] ++ rest) with (34%N :: rest).
  now rewrite (scan_items_body _ _ Hb).
Qed.

Lemma span_digits_run (ds : str) (c : char) (rest : str) :
  forallb is_digit ds = true -> is_digit c = false ->
  span_digits (ds ++ c :: rest) = (ds, c :: rest).
Proof.
  intros Hd Hc. induction ds as [|x ds IH]; simpl.
  - now rewrite Hc.
  - simpl in Hd. apply andb_true_iff in Hd as [Hx Hd].
    now rewrite Hx, (IH Hd).
Qed.

Lemma ends_value_facts (c : char) :
  ends_value c = true ->
  is_digit c = false /\ (c =? 46)%N = false /\
  (c =? 101)%N = false /\ (c =? 69)%N = false.
Proof.
  unfold ends_value, is_json_ws, is_digit. intros H.
  repeat match goal with
         | |- context [(c =? ?k)%N] => destruct (N.eqb_spec c k)
         | H : context [(c =? ?k)%N] |- _ => destruct (N.eqb_spec c k)
         end; subst; try discriminate;
    repeat split; try reflexivity.
  all: destruct (N.leb_spec 48 c); destruct (N.leb_spec c 57);
    simpl; try reflexivity; simpl in H; try discriminate; lia.
Qed.

Lemma is_digit_range (c : char) : is_digit c = true -> (48 <= c <= 57)%N.
Proof.
  unfold is_digit. intros H. apply andb_true_iff in H as [H1 H2].
  apply N.leb_le in H1, H2. lia.
Qed.

Lemma match_number_nat (lit : str) (n : N) (c : char) (rest : str) :
  nat_literal lit n -> ends_value c = true ->
  match_number (lit ++ c :: rest) = Scanned (PInt (Z.of_N n)) (c :: rest) /\
  match_number (45%N :: lit ++ c :: rest) = Scanned (PInt (- Z.of_N n)) (c :: rest).
Proof.
  intros Hn Hc. destruct (ends_value_facts c Hc) as (Hd & H46 & H101 & H69).
  destruct Hn as [|c0 ds H0 Hz Hds].
  - split; unfold match_number; simpl; destruct rest as [|x rest];
      repeat (rewrite ?H46, ?H101, ?H69; simpl); reflexivity.
  - assert (H45 : (c0 =? 45)%N = false).
    { apply is_digit_range in H0. apply N.eqb_neq. lia. }
    split; unfold match_number.
    + change ((c0 :: ds) ++ c :: rest) with (c0 :: (ds ++ c :: rest)).
      cbv beta iota. rewrite H45. cbv beta iota.
      rewrite H0, Hz. simpl negb. cbv beta iota.
      rewrite (span_digits_run ds c rest Hds Hd).
      destruct rest as [|x rest];
        repeat (rewrite ?H46, ?H101, ?H69; simpl); reflexivity.
    + change (45%N :: (c0 :: ds) ++ c :: rest)
        with (45%N :: c0 :: (ds ++ c :: rest)).
      cbv beta iota. change (45 =? 45)%N with true. cbv beta iota.
      change ((c0 :: ds) ++ c :: rest) with (c0 :: (ds ++ c :: rest)).
      cbv beta iota. rewrite H0, Hz. simpl negb. cbv beta iota.
      rewrite (span_digits_run ds c rest Hds Hd).
      destruct rest as [|x rest];
        repeat (rewrite ?H46, ?H101, ?H69; simpl); reflexivity.
Qed.

Lemma after_word_digit (word : string) (c : char) (rest : str) :
  is_digit c = true ->
  match word with
  | String a _ => is_digit (N_of_ascii a) = false
  | EmptyString => False
  end ->
  after (py word) (c :: rest) = None.
Proof.
  intros Hc Hw. destruct word as [|a w]; [contradiction|].
  cbn [py after].
  destruct (N.eqb_spec (N_of_ascii a) c) as [E|_]; [|reflexivity].
  rewrite E, Hc in Hw. discriminate.
Qed.

Lemma nat_literal_head (lit : str) (n : N) :
  nat_literal lit n -> exists c t, lit = c :: t /\ is_digit c = true.
Proof.
  intros [|c ds Hc _ _].
  - now exists 48%N, [].
  - now exists c, ds.
Qed.

(** A value of the grammar is scanned up to the character that ends it. *)
Lemma scan_once_value (vlit : str) (v : pyval) (c : char) (rest : str) (fuel : nat) :
  value_literal vlit v -> ends_value c = true ->
  scan_once (S fuel) (vlit ++ c :: rest) = Scanned v (c :: rest).
Proof.
  intros Hv Hc. destruct Hv as [lit n Hn|lit x Hs].
  - destruct Hn as [lit n Hn|lit n Hn].
    + destruct (nat_literal_head _ _ Hn) as (c0 & t & E & H0).
      destruct (match_number_nat _ _ c rest Hn Hc) as [Hm _].
      rewrite E in *.
      change ((c0 :: t) ++ c :: rest) with (c0 :: (t ++ c :: rest)) in *.
      pose proof (is_digit_range _ H0) as R.
      cbn [scan_once].
      replace (c0 =? 34)%N with false by (symmetry; apply N.eqb_neq; lia).
      replace (c0 =? 123)%N with false by (symmetry; apply N.eqb_neq; lia).
      replace (c0 =? 91)%N with false by (symmetry; apply N.eqb_neq; lia).
      rewrite !(after_word_digit _ c0 _ H0) by reflexivity.
      exact Hm.
    + destruct (nat_literal_head _ _ Hn) as (c0 & t & E & H0).
      destruct (match_number_nat _ _ c rest Hn Hc) as [_ Hm].
      rewrite E in *.
      change ((45%N :: c0 :: t) ++ c :: rest)
        with (45%N :: c0 :: (t ++ c :: rest)).
      change (45%N :: (c0 :: t) ++ c :: rest)
        with (45%N :: c0 :: (t ++ c :: rest)) in Hm.
      cbn [scan_once].
      change (45 =? 34)%N with false. change (45 =? 123)%N with false.
      change (45 =? 91)%N with false. cbv beta iota.
      change (after (py "null") (45%N :: c0 :: t ++ c :: rest)) with (@None str).
      change (after (py "true") (45%N :: c0 :: t ++ c :: rest)) with (@None str).
      change (after (py "false") (45%N :: c0 :: t ++ c :: rest)) with (@None str).
      change (after (py "NaN") (45%N :: c0 :: t ++ c :: rest)) with (@None str).
      change (after (py "Infinity") (45%N :: c0 :: t ++ c :: rest)) with (@None str).
      change (after (py "-Infinity") (45%N :: c0 :: t ++ c :: rest))
        with (after (py "Infinity") (c0 :: t ++ c :: rest)).
      rewrite (after_word_digit _ c0 _ H0) by reflexivity.
      exact Hm.
  - destruct (scanstring_literal _ _ Hs) as (t & -> & Ht).
    change ((34%N :: t) ++ c :: rest) with (34%N :: (t ++ c :: rest)).
    cbn [scan_once]. change (34 =? 34)%N with true. cbv beta iota.
    now rewrite Ht.
Qed.

Lemma skip_ws_json_ws (w : str) (c : char) (rest : str) :
  json_ws w -> is_json_ws c = false -> skip_ws (w ++ c :: rest) = c :: rest.
Proof.
  unfold json_ws. intros Hw Hc. induction w as [|x w IH]; simpl.
  - now rewrite Hc.
  - simpl in Hw. apply andb_true_iff in Hw as [Hx Hw]. rewrite Hx. now apply IH.
Qed.

Lemma ends_value_after_ws (w : str) (c : char) (rest : str) :
  json_ws w -> ends_value c = true ->
  exists c' rest', w ++ c :: rest = c' :: rest' /\ ends_value c' = true.
Proof.
  unfold json_ws. intros Hw Hc. destruct w as [|x w].
  - now exists c, rest.
  - exists x, (w ++ c :: rest). split; [reflexivity|].
    simpl in Hw. apply andb_true_iff in Hw as [Hx _].
    unfold ends_value. now rewrite Hx.
Qed.

Lemma value_literal_head (vlit : str) (v : pyval) :
  value_literal vlit v ->
  exists c t, vlit = c :: t /\ is_json_ws c = false.
Proof.
  intros [lit n [l m Hn|l m Hn]|lit x Hs].
  - destruct (nat_literal_head _ _ Hn) as (c & t & -> & Hc).
    exists c, t. split; [reflexivity|].
    apply is_digit_range in Hc. unfold is_json_ws.
    repeat match goal with
           | |- context [(c =? ?k)%N] =>
               destruct (N.eqb_spec c k); [lia|]
           end. reflexivity.
  - now exists 45%N, l.
  - destruct Hs as [b l Hb]. now exists 34%N, (b ++ [34%N]).
Qed.

Lemma string_literal_head (lit x : str) :
  string_literal lit x -> exists t, lit = 34%N :: t.
Proof. intros [b l _]. now exists (b ++ [34%N]). Qed.

Lemma parse_members_cons (fuel : nat) (c : char) (t : str) (acc : dict) :
  parse_members (S fuel) (c :: t) acc =
    if negb (c =? 34)%N then Invalid
    else
      match scanstring t with
      | Scanned key r1 =>
          match skip_ws r1 with
          | [] => Invalid
          | c2 :: r2 =>
              if negb (c2 =? 58)%N then Invalid
              else
                match scan_once fuel (skip_ws r2) with
                | Scanned v r3 =>
                    match skip_ws r3 with
                    | [] => Invalid
                    | c3 :: r4 =>
                        if (c3 =? 125)%N then Scanned (PDict (dict_set acc key v)) r4
                        else if (c3 =? 44)%N
                        then parse_members fuel (skip_ws r4) (dict_set acc key v)
                        else Invalid
                    end
                | Invalid => Invalid
                | Exhausted => Exhausted
                end
          end
      | Invalid => Invalid
      | Exhausted => Exhausted
      end.
Proof. reflexivity. Qed.

(** One member and the comma or brace after it. *)
Lemma parse_members_member
    (m k w : str) (v : pyval) (c3 : char) (tail : str) (acc : dict) (fuel : nat) :
  member_text m k v -> json_ws w ->
  c3 = 125%N \/ c3 = 44%N ->
  parse_members (S (S fuel)) (m ++ w ++ c3 :: tail) acc =
    if (c3 =? 125)%N then Scanned (PDict (dict_set acc k v)) tail
    else parse_members (S fuel) (skip_ws tail) (dict_set acc k v).
Proof.
  intros Hm Hw Hc3.
  assert (E3 : ends_value c3 = true) by (destruct Hc3; subst; reflexivity).
  assert (W3 : is_json_ws c3 = false) by (destruct Hc3; subst; reflexivity).
  destruct Hm as [klit k w1 w2 vlit v Hk Hw1 Hw2 Hv].
  destruct (scanstring_literal _ _ Hk) as (t & -> & Ht).
  destruct (value_literal_head _ _ Hv) as (cv & tv & Ev & Wv).
  destruct (ends_value_after_ws w c3 tail Hw E3) as (c' & rest' & Er & Ec').
  match goal with
  | |- parse_members _ ?l _ = _ =>
      replace l with (34%N :: (t ++ (w1 ++ 58%N :: (w2 ++ vlit ++ (w ++ c3 :: tail)))))
  end.
  2:{ simpl. f_equal. rewrite <- !app_assoc. simpl. rewrite <- !app_assoc.
      reflexivity. }
  rewrite parse_members_cons.
  change (34 =? 34)%N with true. simpl negb. cbv beta iota.
  rewrite Ht.
  rewrite (skip_ws_json_ws w1 58%N _ Hw1 eq_refl).
  change (58 =? 58)%N with true. simpl negb. cbv beta iota.
  assert (Es : skip_ws (w2 ++ vlit ++ w ++ c3 :: tail) = vlit ++ w ++ c3 :: tail).
  { rewrite Ev. change ((cv :: tv) ++ w ++ c3 :: tail)
      with (cv :: (tv ++ w ++ c3 :: tail)).
    now apply skip_ws_json_ws. }
  rewrite Es, Er, (scan_once_value vlit v c' rest' fuel Hv Ec'), <- Er.
  rewrite (skip_ws_json_ws w c3 tail Hw W3).
  destruct Hc3 as [-> | ->]; reflexivity.
Qed.

Lemma member_text_head (m k : str) (v : pyval) :
  member_text m k v -> exists t, m = 34%N :: t.
Proof.
  intros [klit k' w1 w2 vlit v' Hk _ _ _].
  destruct (string_literal_head _ _ Hk) as [t ->]. now eexists.
Qed.

Lemma members_text_head (ms : str) (d : dict) :
  members_text ms d -> exists t, ms = 34%N :: t.
Proof.
  intros [m k w v Hm _|m k w1 w2 rest v d' Hm _ _ _];
    destruct (member_text_head _ _ _ Hm) as [t ->]; now eexists.
Qed.

(** The members of the grammar are read in order into the record. *)
Lemma parse_members_text (ms : str) (d : dict) :
  members_text ms d ->
  forall fuel rest acc,
    (2 * List.length (ms ++ rest) + 1 <= fuel)%nat ->
    parse_members fuel (ms ++ rest) acc = Scanned (PDict (dict_extend acc d)) rest.
Proof.
  induction 1 as [m k w v Hm Hw|m k w1 w2 ms' v d Hm Hw1 Hw2 Hms IH];
    intros fuel rest acc Hf.
  - destruct (member_text_head _ _ _ Hm) as [t Et].
    assert (Hl : (1 <= List.length ((m ++ w ++ [125%N]) ++ rest))%nat).
    { rewrite Et. simpl. lia. }
    destruct fuel as [|[|fuel]]; try lia.
    match goal with
    | |- parse_members _ ?l _ = _ => replace l with (m ++ w ++ 125%N :: rest)
    end.
    2:{ rewrite <- !app_assoc. reflexivity. }
    exact (parse_members_member m k w v 125%N rest acc fuel Hm Hw (or_introl eq_refl)).
  - destruct (member_text_head _ _ _ Hm) as [t Et].
    destruct (members_text_head _ _ Hms) as [t' Et'].
    assert (Hl : (List.length (ms' ++ rest) + 1
                  <= List.length ((m ++ w1 ++ [44%N] ++ w2 ++ ms') ++ rest))%nat).
    { rewrite !length_app. simpl. lia. }
    destruct fuel as [|[|fuel]]; try lia.
    match goal with
    | |- parse_members _ ?l _ = _ =>
        replace l with (m ++ w1 ++ 44%N :: (w2 ++ ms' ++ rest))
    end.
    2:{ rewrite <- !app_assoc. reflexivity. }
    refine (eq_trans
      (parse_members_member m k w1 v 44%N _ acc fuel Hm Hw1 (or_intror eq_refl)) _).
    change (44 =? 125)%N with false. cbv beta iota.
    assert (Es : skip_ws (w2 ++ ms' ++ rest) = ms' ++ rest).
    { rewrite Et'. change ((34%N :: t') ++ rest) with (34%N :: (t' ++ rest)).
      now apply skip_ws_json_ws. }
    rewrite Es. rewrite IH; [reflexivity | lia].
Qed.

(** An object of the grammar is read as the record of its members. *)
Lemma scan_once_object (t : str) (d : dict) :
  object_text t d ->
  forall fuel rest,
    (2 * List.length (t ++ rest) + 2 <= fuel)%nat ->
    scan_once fuel (t ++ rest) = Scanned (PDict (dict_extend [] d)) rest.
Proof.
  intros [w ms d' Hw Hms] fuel rest Hf.
  destruct (members_text_head _ _ Hms) as [t' Et'].
  destruct fuel as [|fuel]; [lia|].
  change ((123%N :: w ++ ms) ++ rest) with (123%N :: ((w ++ ms) ++ rest)) in *.
  cbn [scan_once]. change (123 =? 34)%N with false. change (123 =? 123)%N with true.
  cbv beta iota.
  assert (Es : skip_ws ((w ++ ms) ++ rest) = 34%N :: (t' ++ rest)).
  { rewrite <- app_assoc, Et'.
    change ((34%N :: t') ++ rest) with (34%N :: (t' ++ rest)).
    now apply skip_ws_json_ws. }
  rewrite Es. change (34 =? 125)%N with false. cbv beta iota.
  change (34%N :: (t' ++ rest)) with ((34%N :: t') ++ rest). rewrite <- Et'.
  apply parse_members_text; [exact Hms|].
  simpl in Hf. rewrite !length_app in *. lia.
Qed.

Lemma json_decode_object (t : str) (d : dict) :
  object_text t d -> json_decode t = Some (PDict (dict_extend [] d)).
Proof.
  intros Ht. unfold json_decode.
  assert (Es : skip_ws t = t) by (destruct Ht; reflexivity).
  rewrite Es.
  assert (E := scan_once_object t d Ht (2 + 2 * List.length t) []).
  rewrite app_nil_r in E. rewrite E; [reflexivity | lia].
Qed.

(** *** Records without a repeated key *)

Lemma dict_set_fresh (acc : dict) (k : str) (v : pyval) :
  ~ In k (keys acc) -> dict_set acc k v = acc ++ [(k, v)].
Proof.
  induction acc as [|[k' v'] acc IH]; simpl; intros Hk; [reflexivity|].
  destruct (str_eqb k' k) eqn:E.
  - apply str_eqb_eq in E. tauto.
  - f_equal. apply IH. tauto.
Qed.

Lemma dict_extend_fresh (d acc : dict) :
  NoDup (keys (acc ++ d)) -> dict_extend acc d = acc ++ d.
Proof.
  revert acc. induction d as [|[k v] d IH]; intros acc Hn.
  - now rewrite app_nil_r.
  - unfold dict_extend. simpl. fold (dict_extend (dict_set acc k v) d).
    assert (Hk : ~ In k (keys acc)).
    { unfold keys in *. rewrite map_app in Hn. simpl in Hn.
      apply NoDup_remove_2 in Hn. rewrite in_app_iff in Hn. tauto. }
    rewrite (dict_set_fresh acc k v Hk), IH, <- app_assoc; [reflexivity|].
    now rewrite <- app_assoc.
Qed.

Lemma result_fields_nodup : NoDup result_fields.
Proof.
  unfold result_fields.
  repeat (constructor;
          [ simpl; intros H;
            repeat destruct H as [H|H]; try discriminate H; exact H | ]).
  constructor.
Qed.

Lemma matches_schema_nodup (d : dict) : matches_schema d -> NoDup (keys d).
Proof.
  intros [Hp _]. apply (Permutation_NoDup (Permutation_sym Hp)).
  exact result_fields_nodup.
Qed.

Lemma has_key_in (d : dict) (k : str) : In k (keys d) -> has_key d k = true.
Proof.
  unfold has_key. induction d as [|[k' v'] d IH]; simpl; [tauto|].
  intros [->|H].
  - assert (E : str_eqb k k = true) by now apply str_eqb_eq.
    now rewrite E.
  - destruct (str_eqb k' k); [reflexivity | now apply IH].
Qed.

Lemma matches_schema_fields (d : dict) :
  matches_schema d -> is_analysis_result (PDict d) = true.
Proof.
  intros [Hp _]. unfold is_analysis_result. apply forallb_forall. intros k Hk.
  apply has_key_in. now apply (Permutation_in k (Permutation_sym Hp)).
Qed.

(** A record checked field by field matches the schema. *)
Lemma matches_schema_checked (d : dict) :
  keys d = result_fields ->
  forallb (fun kv => field_typed (fst kv) (snd kv)) d = true ->
  matches_schema d.
Proof.
  intros Hk Hv. split.
  - rewrite Hk. apply Permutation_refl.
  - clear Hk. intros key v Hg.
    assert (Ht : field_typed key v = true).
    { induction d as [|[k' v'] d IH]; simpl in Hg; [discriminate|].
      simpl in Hv. apply andb_true_iff in Hv as [H1 H2].
      destruct (str_eqb k' key) eqn:E.
      - apply str_eqb_eq in E. subst k'. injection Hg as <-. exact H1.
      - now apply IH. }
    unfold field_typed in Ht.
    now destruct (str_eqb key (py "credibility_score") || str_eqb key (py "confidence")).
Qed.

(** The decoder on an object of the schema. *)
Lemma json_loads_object (I : interpreter) (t : str) (d : dict) :
  object_text t d -> matches_schema d -> decoder_fault I t = None ->
  json_loads I t = Ok (PDict d).
Proof.
  intros Ht Hs Hf. unfold json_loads.
  rewrite Hf, (json_decode_object _ _ Ht).
  rewrite (dict_extend_fresh d []); [reflexivity|].
  now apply matches_schema_nodup.
Qed.

Lemma matches_schema_get (d : dict) (key : str) :
  matches_schema d -> In key result_fields ->
  exists v, dict_get d key = Some v /\ field_typed key v = true.
Proof.
  intros [Hp Ht] Hk.
  assert (Hh : has_key d key = true).
  { apply has_key_in. now apply (Permutation_in key (Permutation_sym Hp)). }
  unfold has_key in Hh. destruct (dict_get d key) as [v|] eqn:E; [|discriminate].
  exists v. split; [reflexivity|].
  specialize (Ht key v E). unfold field_typed.
  now destruct (str_eqb key (py "credibility_score") || str_eqb key (py "confidence")).
Qed.

Lemma matches_schema_int (d : dict) (key : str) :
  matches_schema d -> In key [py "credibility_score"; py "confidence"] ->
  exists n, dict_get d key = Some (PInt n).
Proof.
  intros Hs Hk.
  destruct (matches_schema_get d key Hs) as (v & Hg & Ht).
  { simpl in Hk. destruct Hk as [<-|[<-|[]]]; unfold result_fields; simpl; tauto. }
  assert (Hi : is_int v = true).
  { simpl in Hk. destruct Hk as [<-|[<-|[]]]; exact Ht. }
  destruct v; try discriminate Hi. eexists. exact Hg.
Qed.

Lemma matches_schema_str (d : dict) (key : str) :
  matches_schema d ->
  In key [py "verdict"; py "analysis"; py "red_flags";
          py "credibility_factors"; py "verification_tips"] ->
  exists x, dict_get d key = Some (PStr x).
Proof.
  intros Hs Hk.
  destruct (matches_schema_get d key Hs) as (v & Hg & Ht).
  { simpl in Hk.
    destruct Hk as [<-|[<-|[<-|[<-|[<-|[]]]]]]; unfold result_fields; simpl; tauto. }
  assert (Hi : is_str v = true).
  { simpl in Hk. destruct Hk as [<-|[<-|[<-|[<-|[<-|[]]]]]]; exact Ht. }
  destruct v; try discriminate Hi. eexists. exact Hg.
Qed.

Lemma object_text_truthy (s : str) (d : dict) :
  object_text (strip s) d -> str_truthy s = true.
Proof.
  intros H. destruct s as [|c t]; [|reflexivity].
  rewrite strip_nil in H. inversion H.
Qed.

Lemma extract_fault_eq (I : interpreter) (response_text : str) (f : fault) :
  decoder_fault I (strip response_text) = Some f \/
  (json_loads I (strip response_text) = Raise JSONDecodeError /\
   exists json_match,
     search_braces response_text = Some json_match /\
     decoder_fault I json_match = Some f) ->
  extract_json_from_response I response_text = Raise (fault_exn f).
Proof.
  unfold extract_json_from_response.
  intros [F1 | (H1 & m & Hm & F2)].
  - unfold json_loads. rewrite F1. now destruct f.
  - rewrite H1, Hm. unfold json_loads. rewrite F2. now destruct f.
Qed.

(** *** Literals of plain characters *)

Lemma string_body_plain (x : str) :
  forallb plain x = true -> string_body x (map Lit x).
Proof.
  induction x as [|c x IH]; simpl; intros H; [constructor|].
  apply andb_true_iff in H as [Hc Hx]. unfold plain in Hc.
  apply andb_true_iff in Hc as [Hc H3]. apply andb_true_iff in Hc as [H1 H2].
  apply negb_true_iff in H1, H2, H3.
  constructor; auto.
Qed.


Lemma join_surrogates_lit (x : str) : join_surrogates (map Lit x) = x.
Proof. induction x as [|c x IH]; simpl; [reflexivity | now rewrite IH]. Qed.

Lemma string_literal_plain (x : str) :
  forallb plain x = true -> string_literal (34%N :: x ++ [34%N]) x.
Proof.
  intros H. rewrite <- (join_surrogates_lit x) at 2.
  constructor. now apply string_body_plain.
Qed.

Lemma value_literal_plain (x : str) :
  forallb plain x = true -> value_literal (34%N :: x ++ [34%N]) (PStr x).
Proof. intros H. apply value_string. now apply string_literal_plain. Qed.

Lemma value_literal_digits (c : char) (ds : str) :
  is_digit c = true -> (c =? 48)%N = false -> forallb is_digit ds = true ->
  value_literal (c :: ds) (PInt (Z.of_N (digits_value (c :: ds)))).
Proof. intros H1 H2 H3. apply value_int, int_plain. now apply nat_digits. Qed.

(** Members written as [key: value], separated by a comma and a space. *)
Lemma member_text_spaced (key lit : str) (v : pyval) :
  forallb plain key = true -> value_literal lit v ->
  member_text ((34%N :: key ++ [34%N]) ++ 58%N :: 32%N :: lit) key v.
Proof.
  intros Hk Hv.
  exact (member_pair (34%N :: key ++ [34%N]) key [] [32%N] lit v
           (string_literal_plain key Hk) eq_refl eq_refl Hv).
Qed.

Lemma members_text_spaced_last (key lit : str) (v : pyval) :
  forallb plain key = true -> value_literal lit v ->
  members_text (((34%N :: key ++ [34%N]) ++ 58%N :: 32%N :: lit) ++ [125%N])
               [(key, v)].
Proof.
  intros Hk Hv.
  exact (members_last _ key [] v (member_text_spaced key lit v Hk Hv) eq_refl).
Qed.

Lemma members_text_spaced_more (key lit : str) (v : pyval) (rest : str) (d : dict) :
  forallb plain key = true -> value_literal lit v ->
  members_text rest d ->
  members_text (((34%N :: key ++ [34%N]) ++ 58%N :: 32%N :: lit)
                  ++ 44%N :: 32%N :: rest)
               ((key, v) :: d).
Proof.
  intros Hk Hv Hr.
  exact (members_more _ key [] [32%N] rest v d
           (member_text_spaced key lit v Hk Hv) eq_refl eq_refl Hr).
Qed.

(** The five text members that the two sample answers share, from
    [confidence] on. *)
Lemma sample_tail_members :
  members_text
    (quoted "confidence" ++ py ": 95, " ++
     member "analysis" "No source is named." ++ py ", " ++
     member "red_flags" "Sensational claim" ++ py ", " ++
     member "credibility_factors" "None" ++ py ", " ++
     member "verification_tips" "Ask an astronomer" ++ py "}")
    [ (py "confidence", PInt 95);
      (py "analysis", PStr (py "No source is named."));
      (py "red_flags", PStr (py "Sensational claim"));
      (py "credibility_factors", PStr (py "None"));
      (py "verification_tips", PStr (py "Ask an astronomer")) ].
Proof.
  exact
    (members_text_spaced_more (py "confidence") (py "95") (PInt 95) _ _ eq_refl
       (value_literal_digits 57%N [53%N] eq_refl eq_refl eq_refl)
    (members_text_spaced_more (py "analysis") _ _ _ _ eq_refl
       (value_literal_plain (py "No source is named.") eq_refl)
    (members_text_spaced_more (py "red_flags") _ _ _ _ eq_refl
       (value_literal_plain (py "Sensational claim") eq_refl)
    (members_text_spaced_more (py "credibility_factors") _ _ _ _ eq_refl
       (value_literal_plain (py "None") eq_refl)
    (members_text_spaced_last (py "verification_tips") _ _ eq_refl
       (value_literal_plain (py "Ask an astronomer") eq_refl)))))).
Qed.

Lemma sample_answer_object : object_text (strip sample_answer) sample_record.
Proof.
  exact
    (object_braces [] _ _ eq_refl
    (members_text_spaced_more (py "credibility_score") (py "2") (PInt 2) _ _ eq_refl
       (value_literal_digits 50%N [] eq_refl eq_refl eq_refl)
    (members_text_spaced_more (py "verdict") _ _ _ _ eq_refl
       (value_literal_plain (py "FAKE") eq_refl)
       sample_tail_members))).
Qed.

Lemma long_score_answer_object :
  object_text (strip long_score_answer) long_score_record.
Proof.
  assert (Hd : forallb is_digit (repeat 49%N 4300) = true)
    by (vm_compute; reflexivity).
  exact
    (object_braces [] _ _ eq_refl
    (members_text_spaced_more (py "credibility_score") long_score _ _ _ eq_refl
       (value_literal_digits 49%N (repeat 49%N 4300) eq_refl eq_refl Hd)
    (members_text_spaced_more (py "verdict") _ _ _ _ eq_refl
       (value_literal_plain (py "FAKE") eq_refl)
       sample_tail_members))).
Qed.

(* ================================================================== *)
(** * Part III.  The claims                                            *)
(* ================================================================== *)

(** C2.  [validate_article_text] accepts a text, with an empty message,
    exactly when its trimmed length lies in [10, 50000]; otherwise it
    rejects it with the message of the first failing test: the "cannot
    be empty" message when nothing is left after trimming, the "too
    short" message for a trimmed length between 1 and 9, and the "too
    long" message above 50000. *)
Theorem validate_article_text_spec (text : str) :
  (validate_article_text text = (true, py "") <->
     10 <= len (strip text) <= 50000) /\
  (len (strip text) = 0 ->
     validate_article_text text = (false, py "Article text cannot be empty")) /\
  (0 < len (strip text) < 10 ->
     validate_article_text text =
       (false, py "Article text is too short for meaningful analysis") /\
     contains (py "too short") (snd (validate_article_text text)) = true) /\
  (50000 < len (strip text) ->
     validate_article_text text =
       (false, py "Article text is too long (maximum 50,000 characters)")) /\
  (fst (validate_article_text text) = false <->
     len (strip text) < 10 \/ 50000 < len (strip text)).
Proof.
  unfold validate_article_text.
  destruct (str_truthy text) eqn:Ht; simpl.
  - destruct (str_truthy (strip text)) eqn:Hs; simpl.
    + assert (Hn : len (strip text) <> 0).
      { intro H. apply len_zero in H. rewrite H in Hs. discriminate. }
      pose proof (len_nonneg (strip text)) as Hp.
      destruct (Z.ltb_spec (len (strip text)) 10) as [Hlt|Hge].
      * repeat split; intros; try discriminate; try lia; try reflexivity.
      * unfold Z.gtb.
        destruct (Z.compare_spec (len (strip text)) 50000) as [He|Hl|Hg];
          repeat split; intros; try discriminate; try lia; try reflexivity.
    + apply str_truthy_false in Hs. rewrite Hs. unfold len; simpl.
      repeat split; intros; try discriminate; try lia; try reflexivity.
  - apply str_truthy_false in Ht. subst text. unfold len; simpl.
    repeat split; intros; try discriminate; try lia; try reflexivity.
Qed.

Lemma validate_article_text_spec_witness :
  validate_article_text (py "  too few ") =
    (false, py "Article text is too short for meaningful analysis") /\
  contains (py "too short") (snd (validate_article_text (py "  too few "))) = true.
Proof.
  destruct (validate_article_text_spec (py "  too few ")) as (_ & _ & H & _).
  apply H. vm_compute. split; reflexivity.
Defined.

(** C1 (as stated, refuted).  The extractor does not always return a
    record with the seven fields.  When no limit of the interpreter is
    met, the answer [42] is returned as the integer 42, and the answer
    [{}] as an empty record.  And the extractor can fail: on an answer
    of 4301 digits the decoder stops on the digit limit, and the
    extractor raises [ValueError]. *)
Lemma extract_json_from_response_not_always_record :
  extract_json_from_response roomy (py "42") = Ok (PInt 42) /\
  is_analysis_result (PInt 42) = false /\
  extract_json_from_response roomy (py "{}") = Ok (PDict []) /\
  is_analysis_result (PDict []) = false /\
  extract_json_from_response digit_limited long_score = Raise ValueError.
Proof.
  repeat split; vm_compute; reflexivity.
Qed.

(** C1 (amended).  When the decoder stops on no limit of the
    interpreter, the extractor returns a value, found by the first of
    three attempts that succeeds: the JSON value of the trimmed text,
    whatever its shape; else the JSON value of the span from the first
    opening brace to the last closing brace, whatever its shape; else
    the fallback record, which has the seven fields.  The extractor
    raises exactly when the decoder stops on a limit, at the trimmed
    text or at the brace span once the trimmed text is found not to be
    JSON, and then the exception of that limit, never
    [JSONDecodeError]. *)
Theorem extract_json_from_response_cases (I : interpreter) (response_text : str) :
  (no_decoder_fault I response_text ->
   (exists v,
      json_decode (strip response_text) = Some v /\
      extract_json_from_response I response_text = Ok v) \/
   (json_decode (strip response_text) = None /\
    exists json_match v,
      search_braces response_text = Some json_match /\
      json_decode json_match = Some v /\
      extract_json_from_response I response_text = Ok v) \/
   (json_decode (strip response_text) = None /\
    (forall json_match,
       search_braces response_text = Some json_match ->
       json_decode json_match = None) /\
    extract_json_from_response I response_text = Ok (fallback response_text) /\
    is_analysis_result (fallback response_text) = true)) /\
  (forall e,
     extract_json_from_response I response_text = Raise e ->
     e <> JSONDecodeError /\
     exists f,
       e = fault_exn f /\
       (decoder_fault I (strip response_text) = Some f \/
        exists json_match,
          search_braces response_text = Some json_match /\
          decoder_fault I json_match = Some f)) /\
  (forall f,
     decoder_fault I (strip response_text) = Some f ->
     extract_json_from_response I response_text = Raise (fault_exn f)) /\
  (forall f json_match,
     json_loads I (strip response_text) = Raise JSONDecodeError ->
     search_braces response_text = Some json_match ->
     decoder_fault I json_match = Some f ->
     extract_json_from_response I response_text = Raise (fault_exn f)).
Proof.
  split; [|split; [|split]].
  - intros [H1 H2]. unfold extract_json_from_response, json_loads. rewrite H1.
    destruct (json_decode (strip response_text)) as [v|] eqn:E1.
    { left. now exists v. }
    right. destruct (search_braces response_text) as [m|] eqn:Em.
    + rewrite (H2 m eq_refl).
      destruct (json_decode m) as [v|] eqn:E2.
      * left. split; [reflexivity|]. now exists m, v.
      * right. repeat split; try reflexivity.
        intros m' Hm'. now injection Hm' as <-.
    + right. repeat split; try reflexivity. discriminate.
  - intros e. unfold extract_json_from_response, json_loads.
    destruct (decoder_fault I (strip response_text)) as [f|] eqn:F1.
    { destruct f; simpl; intros H; injection H as <-.
      - split; [discriminate|]. exists RecursionLimit.
        split; [reflexivity | now left].
      - split; [discriminate|]. exists DigitLimit.
        split; [reflexivity | now left]. }
    destruct (json_decode (strip response_text)); [discriminate|].
    destruct (search_braces response_text) as [m|]; [|discriminate].
    destruct (decoder_fault I m) as [f|] eqn:F2.
    { destruct f; simpl; intros H; injection H as <-.
      - split; [discriminate|]. exists RecursionLimit.
        split; [reflexivity|]. right. now exists m.
      - split; [discriminate|]. exists DigitLimit.
        split; [reflexivity|]. right. now exists m. }
    destruct (json_decode m); discriminate.
  - intros f F1. unfold extract_json_from_response, json_loads. rewrite F1.
    now destruct f.
  - intros f m H1 Hm F2. unfold extract_json_from_response. rewrite H1, Hm.
    unfold json_loads. rewrite F2. now destruct f.
Qed.

Lemma extract_json_from_response_cases_witness :
  (exists v,
     json_decode (strip sample_answer) = Some v /\
     extract_json_from_response roomy sample_answer = Ok v) \/
  (json_decode (strip sample_answer) = None /\
   exists json_match v,
     search_braces sample_answer = Some json_match /\
     json_decode json_match = Some v /\
     extract_json_from_response roomy sample_answer = Ok v) \/
  (json_decode (strip sample_answer) = None /\
   (forall json_match,
      search_braces sample_answer = Some json_match ->
      json_decode json_match = None) /\
   extract_json_from_response roomy sample_answer = Ok (fallback sample_answer) /\
   is_analysis_result (fallback sample_answer) = true).
Proof.
  destruct (extract_json_from_response_cases roomy sample_answer) as [H _].
  apply H. split; [reflexivity | intros; reflexivity].
Defined.

(** C3.  When the values under [credibility_score] and [confidence]
    (or their defaults 0 and 50) can be coerced to integers, the
    normalisation succeeds; the score of the result is that integer
    clamped to [0, 10] and its confidence is that integer clamped to
    [0, 100]; an absent score gives 0 and an absent confidence 50. *)
Theorem normalize_clamps (I : interpreter) (d : dict) (score confidence : Z) :
  py_int I (field d (py "credibility_score") (PInt 0)) = Ok score ->
  py_int I (field d (py "confidence") (PInt 50)) = Ok confidence ->
  exists r,
    normalize I (PDict d) = Ok (PDict r) /\
    dict_get r (py "credibility_score") = Some (PInt (Z.min 10 (Z.max 0 score))) /\
    dict_get r (py "confidence") = Some (PInt (Z.min 100 (Z.max 0 confidence))) /\
    0 <= Z.min 10 (Z.max 0 score) <= 10 /\
    0 <= Z.min 100 (Z.max 0 confidence) <= 100 /\
    (dict_get d (py "credibility_score") = None ->
       dict_get r (py "credibility_score") = Some (PInt 0)) /\
    (dict_get d (py "confidence") = None ->
       dict_get r (py "confidence") = Some (PInt 50)).
Proof.
  intros Hs Hc.
  unfold normalize, py_get, and_then. rewrite Hs, Hc.
  eexists. split; [reflexivity|].
  split; [reflexivity|]. split; [reflexivity|].
  split; [lia|]. split; [lia|].
  split; intros Habs.
  - unfold field in Hs. rewrite Habs in Hs. injection Hs as <-. reflexivity.
  - unfold field in Hc. rewrite Habs in Hc. injection Hc as <-. reflexivity.
Qed.

Lemma normalize_clamps_witness :
  exists r,
    normalize roomy (PDict [(py "credibility_score", PInt 999);
                            (py "confidence", PInt (-5))]) = Ok (PDict r) /\
    dict_get r (py "credibility_score") = Some (PInt 10) /\
    dict_get r (py "confidence") = Some (PInt 0).
Proof.
  destruct (normalize_clamps roomy
              [(py "credibility_score", PInt 999); (py "confidence", PInt (-5))]
              999 (-5)) as (r & H1 & H2 & H3 & _); [reflexivity | reflexivity |].
  exists r. repeat split; assumption.
Defined.

(** C4 (as stated, refuted).  A text without braces need not give the
    fallback record: [42] has no brace, and the extractor returns the
    integer 42. *)
Lemma extract_no_brace_not_fallback :
  has_brace (py "42") = false /\
  extract_json_from_response roomy (py "42") = Ok (PInt 42) /\
  extract_json_from_response roomy (py "42") <> Ok (fallback (py "42")).
Proof.
  split; [reflexivity|]. split; [reflexivity|]. discriminate.
Qed.

(** C4 (amended).  When decoding the trimmed text fails with
    [JSONDecodeError], and decoding the brace span fails with
    [JSONDecodeError] too or the text has no brace at all, the
    extractor returns exactly the fallback record: score 0, verdict
    UNKNOWN, confidence 50, the trimmed text as analysis (the fixed
    message if nothing is left of it), and the three fixed texts. *)
Theorem extract_json_from_response_fallback (I : interpreter) (response_text : str) :
  json_loads I (strip response_text) = Raise JSONDecodeError ->
  json_of_braces I response_text = Raise JSONDecodeError \/
  has_brace response_text = false ->
  extract_json_from_response I response_text =
    Ok (PDict
          [ (py "credibility_score", PInt 0);
            (py "verdict", PStr (py "UNKNOWN"));
            (py "confidence", PInt 50);
            (py "analysis",
               PStr (match strip response_text with
                     | [] => py "Unable to analyze the article."
                     | _ :: _ => strip response_text
                     end));
            (py "red_flags", PStr (py "Response parsing failed"));
            (py "credibility_factors", PStr (py "Unable to assess"));
            (py "verification_tips",
               PStr (py "Please try again with a different article")) ]).
Proof.
  intros H1 H2.
  assert (Hb : json_of_braces I response_text = Raise JSONDecodeError).
  { destruct H2 as [H2|H2]; [exact H2 | now apply json_of_braces_no_brace]. }
  rewrite (extract_fallback_eq _ _ H1 Hb). unfold fallback.
  now destruct (strip response_text).
Qed.

Lemma extract_json_from_response_fallback_witness :
  extract_json_from_response roomy (py " The article looks fine to me. ") =
    Ok (PDict
          [ (py "credibility_score", PInt 0);
            (py "verdict", PStr (py "UNKNOWN"));
            (py "confidence", PInt 50);
            (py "analysis", PStr (py "The article looks fine to me."));
            (py "red_flags", PStr (py "Response parsing failed"));
            (py "credibility_factors", PStr (py "Unable to assess"));
            (py "verification_tips",
               PStr (py "Please try again with a different article")) ]).
Proof.
  apply (extract_json_from_response_fallback roomy
           (py " The article looks fine to me. ")).
  - reflexivity.
  - right. reflexivity.
Defined.

(** C5.  For a request that passes validation, when the call of the
    model raises, or gives no response, or a response without text or
    with an empty text, the handler answers 503 with the fixed message;
    the model was called once and the extractor not at all. *)
Theorem model_unavailable_gives_503
    (I : interpreter) (model : model_client) (req : request) (text : str) :
  valid_request req text ->
  unavailable (model (create_fake_news_analysis_prompt (strip text))) = true ->
  analyze_authenticity I model req =
    ([CallModel (create_fake_news_analysis_prompt (strip text))],
     mkResponse 503
       (error_body (py "AI analysis service is temporarily unavailable. Please try again later."))) /\
  calls_extract (fst (analyze_authenticity I model req)) = false.
Proof.
  intros Hv Hu. unfold analyze_authenticity.
  rewrite (analyze_body_valid _ _ _ _ Hv), (analyze_article_unavailable _ _ _ Hu).
  split; reflexivity.
Qed.

Lemma model_unavailable_gives_503_witness :
  respond roomy (constant_model (GenText (Some []))) (post_text sample_article) =
    mkResponse 503
      (error_body (py "AI analysis service is temporarily unavailable. Please try again later.")).
Proof.
  unfold respond.
  destruct (model_unavailable_gives_503 roomy
              (constant_model (GenText (Some []))) (post_text sample_article)
              sample_article) as [H _].
  - valid_by_evaluation.
  - reflexivity.
  - rewrite H. reflexivity.
Defined.

(** C6.  For a request that passes validation and an answer of the
    model from which a record is extracted, when the value under
    [credibility_score] or under [confidence] (or its default) cannot
    be coerced to an integer, the normalisation raises and the handler
    answers 500 with the parse-failure message. *)
Theorem uncoercible_gives_500
    (I : interpreter) (model : model_client) (req : request)
    (text answer : str) (d : dict) :
  valid_request req text ->
  model (create_fake_news_analysis_prompt (strip text)) = GenText (Some answer) ->
  str_truthy answer = true ->
  extract_json_from_response I answer = Ok (PDict d) ->
  coercible I (field d (py "credibility_score") (PInt 0)) = false \/
  coercible I (field d (py "confidence") (PInt 50)) = false ->
  (exists e, normalize I (PDict d) = Raise e) /\
  analyze_authenticity I model req =
    ([CallModel (create_fake_news_analysis_prompt (strip text));
      CallExtract answer],
     mkResponse 500
       (error_body (py "Failed to parse analysis results. Please try again."))).
Proof.
  intros Hv Hm Ht He Hc.
  assert (Hn : exists e, normalize I (PDict d) = Raise e).
  { unfold normalize, py_get, and_then, coercible in *.
    destruct (py_int I (field d (py "credibility_score") (PInt 0))) as [s|e].
    - destruct (py_int I (field d (py "confidence") (PInt 50))) as [c|e].
      + destruct Hc; discriminate.
      + now exists e.
    - now exists e. }
  split; [exact Hn|].
  destruct Hn as [e Hn].
  unfold analyze_authenticity.
  rewrite (analyze_body_valid _ _ _ _ Hv), (analyze_article_text _ _ _ _ Hm Ht).
  rewrite He. unfold and_then. rewrite Hn. reflexivity.
Qed.

Lemma uncoercible_gives_500_witness :
  respond roomy (constant_model (GenText (Some vague_answer)))
    (post_text sample_article) =
    mkResponse 500
      (error_body (py "Failed to parse analysis results. Please try again.")).
Proof.
  unfold respond.
  destruct (uncoercible_gives_500 roomy
              (constant_model (GenText (Some vague_answer)))
              (post_text sample_article) sample_article vague_answer
              [(py "credibility_score", PStr (py "high"));
               (py "confidence", PInt 70)]) as [_ H].
  - valid_by_evaluation.
  - reflexivity.
  - reflexivity.
  - reflexivity.
  - left. reflexivity.
  - rewrite H. reflexivity.
Defined.

(** C7 (as stated, refuted).  A JSON object with the seven fields of the
    schema, whose score is an integer of 4301 digits, is not returned:
    the decoder stops on the digit limit of the interpreter, and the
    extractor raises [ValueError]. *)
Lemma extract_json_from_response_long_score :
  object_text (strip long_score_answer) long_score_record /\
  matches_schema long_score_record /\
  extract_json_from_response digit_limited long_score_answer = Raise ValueError.
Proof.
  split; [exact long_score_answer_object|]. split.
  - apply matches_schema_checked; vm_compute; reflexivity.
  - vm_compute. reflexivity.
Qed.

(** C7 (amended).  Round trip: when the trimmed text is a JSON object of
    the grammar that denotes a record with exactly the seven fields of
    the schema, integers under [credibility_score] and [confidence] and
    strings under the others, and the decoder stops on no limit of the
    interpreter, the extractor returns that record: the same keys in
    the order of the text, each with the value the text gives it. *)
Theorem extract_json_from_response_roundtrip
    (I : interpreter) (response_text : str) (d : dict) :
  object_text (strip response_text) d ->
  matches_schema d ->
  decoder_fault I (strip response_text) = None ->
  extract_json_from_response I response_text = Ok (PDict d) /\
  is_analysis_result (PDict d) = true.
Proof.
  intros Ht Hs Hf. split; [|now apply matches_schema_fields].
  unfold extract_json_from_response.
  now rewrite (json_loads_object I _ d Ht Hs Hf).
Qed.

Lemma extract_json_from_response_roundtrip_witness :
  extract_json_from_response roomy sample_answer = Ok (PDict sample_record) /\
  is_analysis_result (PDict sample_record) = true.
Proof.
  apply (extract_json_from_response_roundtrip roomy sample_answer sample_record).
  - exact sample_answer_object.
  - apply matches_schema_checked; reflexivity.
  - reflexivity.
Defined.

(** C8.  When the text of a JSON request (the string under [text], or
    the empty string when the key is absent) fails validation, the
    handler answers 400 with the validator's message and calls nothing:
    the answer is the same whatever the model would do. *)
Theorem validation_failure_never_calls_model
    (I : interpreter) (req : request) (data : pyval) (text message : str) :
  is_json req = true ->
  get_json req = Ok data ->
  truthy data = true ->
  py_get data (py "text") (PStr (py "")) = Ok (PStr text) ->
  validate_article_text text = (false, message) ->
  (forall model : model_client,
     analyze_authenticity I model req =
       ([], mkResponse 400 (error_body message))) /\
  (forall model model' : model_client,
     analyze_authenticity I model req = analyze_authenticity I model' req).
Proof.
  intros Hj Hd Ht Hg Hv.
  assert (H : forall model : model_client,
             analyze_authenticity I model req =
               ([], mkResponse 400 (error_body message))).
  { intros model. unfold analyze_authenticity, analyze_body.
    rewrite Hj, Hd. simpl negb. cbv iota.
    rewrite bind_lift_ok, Ht. simpl negb. cbv iota.
    rewrite Hg, bind_lift_ok. unfold py_strip. rewrite bind_lift_ok.
    rewrite validate_article_text_strip, Hv. reflexivity. }
  split; [exact H|].
  intros model model'. now rewrite (H model), (H model').
Qed.

Lemma validation_failure_never_calls_model_witness :
  analyze_authenticity roomy (constant_model (GenText (Some sample_answer)))
    (post_text (py "ab")) =
    ([], mkResponse 400
           (error_body (py "Article text is too short for meaningful analysis"))).
Proof.
  destruct (validation_failure_never_calls_model roomy
              (post_text (py "ab")) (PDict [(py "text", PStr (py "ab"))])
              (py "ab")
              (py "Article text is too short for meaningful analysis"))
    as [H _];
    [reflexivity | reflexivity | reflexivity | reflexivity | reflexivity |].
  apply H.
Defined.

(** C9.  For a JSON request whose body is an object with a value under
    [text] that is not a string, the handler answers 500 with the
    unexpected-error message, and calls nothing. *)
Theorem non_string_text_gives_500
    (I : interpreter) (model : model_client) (req : request) (d : dict) (v : pyval) :
  is_json req = true ->
  get_json req = Ok (PDict d) ->
  dict_get d (py "text") = Some v ->
  is_str v = false ->
  analyze_authenticity I model req =
    ([], mkResponse 500
           (error_body (py "An unexpected error occurred. Please try again."))).
Proof.
  intros Hj Hd Hk Hs.
  unfold analyze_authenticity, analyze_body.
  rewrite Hj, Hd. simpl negb. cbv iota.
  rewrite bind_lift_ok, (dict_get_some_truthy d _ _ Hk). simpl negb. cbv iota.
  unfold py_get, field. rewrite Hk, bind_lift_ok.
  destruct v; try discriminate; reflexivity.
Qed.

Lemma non_string_text_gives_500_witness :
  analyze_authenticity roomy (constant_model (GenText (Some sample_answer)))
    (mkRequest true (Ok (PDict [(py "text", PInt 12345678901)]))) =
    ([], mkResponse 500
           (error_body (py "An unexpected error occurred. Please try again."))).
Proof.
  apply (non_string_text_gives_500 _ _ _ [(py "text", PInt 12345678901)]
           (PInt 12345678901)); reflexivity.
Defined.

(** C10.  For a request that passes validation, when the trimmed answer
    of the model is valid JSON but not an object, the extractor returns
    that value as it is and the handler answers 500 with the
    parse-failure message. *)
Theorem non_object_answer_gives_500
    (I : interpreter) (model : model_client) (req : request)
    (text answer : str) (v : pyval) :
  valid_request req text ->
  model (create_fake_news_analysis_prompt (strip text)) = GenText (Some answer) ->
  json_loads I (strip answer) = Ok v ->
  is_dict v = false ->
  extract_json_from_response I answer = Ok v /\
  analyze_authenticity I model req =
    ([CallModel (create_fake_news_analysis_prompt (strip text));
      CallExtract answer],
     mkResponse 500
       (error_body (py "Failed to parse analysis results. Please try again."))).
Proof.
  intros Hv Hm Hj Hd.
  assert (He : extract_json_from_response I answer = Ok v)
    by now apply extract_strict_eq.
  split; [exact He|].
  unfold analyze_authenticity.
  rewrite (analyze_body_valid _ _ _ _ Hv).
  rewrite (analyze_article_text _ _ _ _ Hm (json_loads_some_truthy _ _ _ Hj)).
  rewrite He. unfold and_then. rewrite (normalize_not_dict _ _ Hd). reflexivity.
Qed.

Lemma non_object_answer_gives_500_witness :
  extract_json_from_response roomy (py " [1, 2] ") = Ok (PList [PInt 1; PInt 2]) /\
  respond roomy (constant_model (GenText (Some (py " [1, 2] "))))
    (post_text sample_article) =
    mkResponse 500
      (error_body (py "Failed to parse analysis results. Please try again.")).
Proof.
  unfold respond.
  destruct (non_object_answer_gives_500 roomy
              (constant_model (GenText (Some (py " [1, 2] "))))
              (post_text sample_article) sample_article (py " [1, 2] ")
              (PList [PInt 1; PInt 2])) as [H1 H2].
  - valid_by_evaluation.
  - reflexivity.
  - reflexivity.
  - reflexivity.
  - split; [exact H1 | rewrite H2; reflexivity].
Defined.

(* ================================================================== *)
(** * Part IV.  Further properties of the code                         *)
(* ================================================================== *)

(** ** The handler as a whole *)

(** Every way through the handler: a rejection before any call, a 503
    after the call of the model, or the outcome of extraction and
    normalisation after both calls. *)
Lemma analyze_authenticity_paths
    (I : interpreter) (model : model_client) (req : request) :
  (exists message,
     analyze_authenticity I model req = ([], mkResponse 400 (error_body message)) /\
     forall text, ~ valid_request req text) \/
  (analyze_authenticity I model req = ([], unexpected_error_response) /\
   forall text, ~ valid_request req text) \/
  (exists text,
     valid_request req text /\
     unavailable (model (create_fake_news_analysis_prompt (strip text))) = true /\
     analyze_authenticity I model req =
       ([CallModel (create_fake_news_analysis_prompt (strip text))],
        unavailable_response)) \/
  (exists text answer,
     valid_request req text /\
     model (create_fake_news_analysis_prompt (strip text)) = GenText (Some answer) /\
     str_truthy answer = true /\
     analyze_authenticity I model req =
       ([CallModel (create_fake_news_analysis_prompt (strip text));
         CallExtract answer],
        match (let* analysis_result := extract_json_from_response I answer in
               normalize I analysis_result) with
        | Ok r => mkResponse 200 r
        | Raise _ => parse_failure_response
        end)).
Proof.
  destruct (is_json req) eqn:Hj.
  2:{ left. eexists. split.
      - unfold analyze_authenticity, analyze_body. rewrite Hj. reflexivity.
      - intros text (Hj' & _). congruence. }
  destruct (get_json req) as [data|e] eqn:Hd.
  2:{ right. left. split.
      - unfold analyze_authenticity, analyze_body. rewrite Hj, Hd. reflexivity.
      - intros text (_ & d & Hd' & _). congruence. }
  destruct (truthy data) eqn:Ht.
  2:{ left. eexists. split.
      - unfold analyze_authenticity, analyze_body. rewrite Hj, Hd.
        simpl negb. cbv iota. rewrite bind_lift_ok, Ht. reflexivity.
      - intros text (_ & d & Hd' & Hk & _).
        rewrite Hd in Hd'. injection Hd' as ->.
        rewrite (dict_get_some_truthy d _ _ Hk) in Ht. discriminate. }
  assert (Hstart : analyze_body I model req =
            (text <- lift (py_get data (py "text") (PStr (py ""))) ;;
             article_text <- lift (py_strip text) ;;
             let '(is_valid, error_message) := validate_article_text article_text in
             if negb is_valid then ret (mkResponse 400 (error_body error_message))
             else analyze_article I model article_text)).
  { unfold analyze_body. rewrite Hj, Hd. simpl negb. cbv iota.
    rewrite bind_lift_ok, Ht. reflexivity. }
  destruct (is_dict data) eqn:Hdict.
  2:{ right. left. split.
      - unfold analyze_authenticity. rewrite Hstart.
        destruct data; try discriminate; reflexivity.
      - intros text (_ & d & Hd' & _). rewrite Hd in Hd'.
        injection Hd' as ->. discriminate. }
  destruct data as [| | | | |l|d]; try discriminate.
  destruct (field d (py "text") (PStr (py ""))) as [| | | |t| |] eqn:Hf;
    try (right; left; split;
         [ unfold analyze_authenticity; rewrite Hstart; unfold py_get;
           rewrite Hf; reflexivity
         | intros text (_ & d' & Hd' & Hk & _); rewrite Hd in Hd';
           injection Hd' as <-; unfold field in Hf; rewrite Hk in Hf;
           discriminate ]).
  assert (Hval : analyze_body I model req =
            let '(is_valid, error_message) := validate_article_text t in
            if negb is_valid then ret (mkResponse 400 (error_body error_message))
            else analyze_article I model (strip t)).
  { rewrite Hstart. unfold py_get. rewrite Hf, bind_lift_ok.
    unfold py_strip. rewrite bind_lift_ok, validate_article_text_strip.
    reflexivity. }
  destruct (validate_article_text t) as [is_valid message] eqn:Hv.
  destruct is_valid.
  2:{ left. exists message. split.
      - unfold analyze_authenticity. rewrite Hval. reflexivity.
      - intros text (_ & d' & Hd' & Hk & Hok). rewrite Hd in Hd'.
        injection Hd' as <-. unfold field in Hf. rewrite Hk in Hf.
        injection Hf as ->. rewrite Hv in Hok. discriminate. }
  assert (Hvalid : valid_request req t).
  { split; [exact Hj|]. exists d. split; [exact Hd|]. split.
    - unfold field in Hf. destruct (dict_get d (py "text")) as [x|].
      + now subst x.
      + injection Hf as <-. discriminate.
    - now rewrite Hv. }
  right. right.
  destruct (unavailable (model (create_fake_news_analysis_prompt (strip t)))) eqn:Hu.
  - left. exists t. split; [exact Hvalid|]. split; [exact Hu|].
    unfold analyze_authenticity. rewrite Hval. simpl negb. cbv iota.
    now rewrite (analyze_article_unavailable _ _ _ Hu).
  - right.
    destruct (model (create_fake_news_analysis_prompt (strip t)))
      as [| | |[answer|]] eqn:Hm; try discriminate.
    simpl in Hu. apply negb_false_iff in Hu.
    exists t, answer. split; [exact Hvalid|]. split; [exact Hm|].
    split; [exact Hu|].
    unfold analyze_authenticity. rewrite Hval. simpl negb. cbv iota.
    now rewrite (analyze_article_text _ _ _ _ Hm Hu).
Qed.

(** What a successful normalisation returns, field by field. *)
Lemma normalize_ok (I : interpreter) (v r : pyval) :
  normalize I v = Ok r ->
  exists d score confidence,
    v = PDict d /\
    py_int I (field d (py "credibility_score") (PInt 0)) = Ok score /\
    py_int I (field d (py "confidence") (PInt 50)) = Ok confidence /\
    r = PDict
          [ (py "credibility_score", PInt (Z.min 10 (Z.max 0 score)));
            (py "verdict", field d (py "verdict") (PStr (py "UNKNOWN")));
            (py "confidence", PInt (Z.min 100 (Z.max 0 confidence)));
            (py "analysis", field d (py "analysis") (PStr (py "Analysis completed")));
            (py "red_flags",
               field d (py "red_flags") (PStr (py "No major red flags identified")));
            (py "credibility_factors",
               field d (py "credibility_factors")
                 (PStr (py "Standard credibility markers present")));
            (py "verification_tips",
               field d (py "verification_tips")
                 (PStr (py "Cross-check with multiple reliable sources"))) ].
Proof.
  intros H. destruct v as [| | | | |l|d]; try discriminate.
  unfold normalize, py_get, and_then in H.
  destruct (py_int I (field d (py "credibility_score") (PInt 0))) as [s|] eqn:Hs;
    [|discriminate].
  destruct (py_int I (field d (py "confidence") (PInt 50))) as [c|] eqn:Hc;
    [|discriminate].
  injection H as <-. exists d, s, c.
  split; [reflexivity|]. split; [exact Hs|]. split; [exact Hc | reflexivity].
Qed.

(** X1.  The handler answers with one of four statuses, 200, 400, 500
    or 503, and every answer other than a 200 is a JSON object with the
    single key [error] and a string under it. *)
Theorem handler_statuses
    (I : interpreter) (model : model_client) (req : request) :
  (status (respond I model req) = 200 \/ status (respond I model req) = 400 \/
   status (respond I model req) = 500 \/ status (respond I model req) = 503) /\
  (status (respond I model req) <> 200 ->
   exists message, body (respond I model req) = PDict [(py "error", PStr message)]).
Proof.
  unfold respond.
  destruct (analyze_authenticity_paths I model req)
    as [(m & H & _) | [(H & _) | [(t & _ & _ & H) | (t & a & _ & _ & _ & H)]]];
    rewrite H; simpl.
  - split; [auto|]. intros _. now exists m.
  - split; [auto|]. intros _. eexists. reflexivity.
  - split; [auto|]. intros _. eexists. reflexivity.
  - destruct (let* analysis_result := extract_json_from_response I a in
              normalize I analysis_result); simpl.
    + split; [auto|]. intros C. now contradiction C.
    + split; [auto|]. intros _. eexists. reflexivity.
Qed.

Lemma handler_statuses_witness :
  exists message,
    body (respond roomy (constant_model GenRaises) (mkRequest true (Raise BadRequest))) =
      PDict [(py "error", PStr message)].
Proof.
  apply (handler_statuses roomy (constant_model GenRaises)
           (mkRequest true (Raise BadRequest))).
  vm_compute. discriminate.
Defined.

(** X2.  While handling one request the model is called at most once,
    and the extractor at most once, only after the model and only on
    the non-empty text the model returned for the prompt. *)
Theorem handler_calls
    (I : interpreter) (model : model_client) (req : request) :
  fst (analyze_authenticity I model req) = [] \/
  (exists prompt, fst (analyze_authenticity I model req) = [CallModel prompt]) \/
  (exists prompt answer,
     fst (analyze_authenticity I model req) = [CallModel prompt; CallExtract answer] /\
     model prompt = GenText (Some answer) /\
     answer <> []).
Proof.
  destruct (analyze_authenticity_paths I model req)
    as [(m & H & _) | [(H & _) | [(t & _ & _ & H) | (t & a & _ & Hm & Ha & H)]]];
    rewrite H; simpl.
  - now left.
  - now left.
  - right. left. eexists. reflexivity.
  - right. right. eexists. exists a. split; [reflexivity|]. split; [exact Hm|].
    intros ->. discriminate.
Qed.

(** X3.  Every 200 answer has exactly the seven fields, in the order of
    the source, with an integer score in [0, 10] and an integer
    confidence in [0, 100]. *)
Theorem success_response_shape
    (I : interpreter) (model : model_client) (req : request) :
  status (respond I model req) = 200 ->
  exists score confidence verdict analysis red_flags factors tips,
    body (respond I model req) =
      PDict [ (py "credibility_score", PInt score);
              (py "verdict", verdict);
              (py "confidence", PInt confidence);
              (py "analysis", analysis);
              (py "red_flags", red_flags);
              (py "credibility_factors", factors);
              (py "verification_tips", tips) ] /\
    0 <= score <= 10 /\ 0 <= confidence <= 100.
Proof.
  unfold respond.
  destruct (analyze_authenticity_paths I model req)
    as [(m & H & _) | [(H & _) | [(t & _ & _ & H) | (t & a & _ & _ & _ & H)]]];
    rewrite H; simpl; try discriminate.
  destruct (extract_json_from_response I a) as [x|e]; simpl; [|discriminate].
  destruct (normalize I x) as [r|e] eqn:Hn; simpl; [|discriminate].
  intros _. destruct (normalize_ok _ _ _ Hn) as (d & s & c & _ & _ & _ & ->).
  do 7 eexists. split; [reflexivity|]. lia.
Qed.

Lemma success_response_shape_witness :
  exists score confidence verdict analysis red_flags factors tips,
    body (respond roomy (constant_model (GenText (Some sample_answer)))
            (post_text sample_article)) =
      PDict [ (py "credibility_score", PInt score);
              (py "verdict", verdict);
              (py "confidence", PInt confidence);
              (py "analysis", analysis);
              (py "red_flags", red_flags);
              (py "credibility_factors", factors);
              (py "verification_tips", tips) ] /\
    0 <= score <= 10 /\ 0 <= confidence <= 100.
Proof.
  apply (success_response_shape roomy
           (constant_model (GenText (Some sample_answer)))
           (post_text sample_article)).
  reflexivity.
Defined.

Lemma valid_request_unique (req : request) (text text' : str) :
  valid_request req text -> valid_request req text' -> text = text'.
Proof.
  intros (_ & d & Hd & Hk & _) (_ & d' & Hd' & Hk' & _).
  rewrite Hd in Hd'. injection Hd' as <-.
  rewrite Hk in Hk'. now injection Hk' as <-.
Qed.

(** X4.  The model is called exactly for the requests that pass
    validation: if it is called the request passes validation, and if
    the request passes validation the first thing the handler does is
    to call the model with the prompt built from the trimmed text. *)
Theorem model_called_iff_valid
    (I : interpreter) (model : model_client) (req : request) :
  (calls_model (fst (analyze_authenticity I model req)) = true <->
   exists text, valid_request req text) /\
  (forall text,
     valid_request req text ->
     hd_error (fst (analyze_authenticity I model req)) =
       Some (CallModel (create_fake_news_analysis_prompt (strip text)))).
Proof.
  destruct (analyze_authenticity_paths I model req)
    as [(m & H & N) | [(H & N) | [(t & V & _ & H) | (t & a & V & _ & _ & H)]]];
    rewrite H; simpl.
  - split; [split|].
    + discriminate.
    + intros (t & V). now apply N in V.
    + intros t V. now apply N in V.
  - split; [split|].
    + discriminate.
    + intros (t & V). now apply N in V.
    + intros t V. now apply N in V.
  - split; [split|].
    + intros _. now exists t.
    + reflexivity.
    + intros t' V'. now rewrite (valid_request_unique _ _ _ V' V).
  - split; [split|].
    + intros _. now exists t.
    + reflexivity.
    + intros t' V'. now rewrite (valid_request_unique _ _ _ V' V).
Qed.

Lemma model_called_iff_valid_witness :
  hd_error
    (fst (analyze_authenticity roomy (constant_model GenFalsy)
            (post_text sample_article))) =
  Some (CallModel (create_fake_news_analysis_prompt (strip sample_article))).
Proof.
  apply (model_called_iff_valid roomy (constant_model GenFalsy)
           (post_text sample_article)).
  valid_by_evaluation.
Defined.

(** The handler on a JSON request whose body is an object with a string
    under [text] (or no such key): everything is decided by the trimmed
    text. *)
Lemma analyze_authenticity_object
    (I : interpreter) (model : model_client) (req : request) (d : dict) (text : str) :
  is_json req = true ->
  get_json req = Ok (PDict d) ->
  field d (py "text") (PStr (py "")) = PStr text ->
  analyze_authenticity I model req =
    match
      (if negb (truthy (PDict d)) then
         ret (mkResponse 400 (error_body (py "No JSON data provided")))
       else
         let '(is_valid, error_message) := validate_article_text (strip text) in
         if negb is_valid then ret (mkResponse 400 (error_body error_message))
         else analyze_article I model (strip text))
    with
    | (tr, Ok resp) => (tr, resp)
    | (tr, Raise _) => (tr, unexpected_error_response)
    end.
Proof.
  intros Hj Hd Hf. unfold analyze_authenticity, analyze_body.
  rewrite Hj, Hd. simpl negb. cbv iota. rewrite bind_lift_ok.
  destruct d as [|kv d0]; [reflexivity|].
  simpl truthy. simpl negb. cbv iota.
  unfold py_get. rewrite Hf, bind_lift_ok. unfold py_strip.
  rewrite bind_lift_ok. reflexivity.
Qed.

(** X5.  A request that does not announce JSON is answered 400 before
    its body is read: whatever the body is, readable or not, and
    whatever the model would do. *)
Theorem content_type_checked_first
    (I : interpreter) (model : model_client) (req : request) :
  is_json req = false ->
  analyze_authenticity I model req =
    ([], mkResponse 400 (error_body (py "Content-Type must be application/json"))).
Proof.
  intros H. unfold analyze_authenticity, analyze_body. rewrite H. reflexivity.
Qed.

Lemma content_type_checked_first_witness :
  analyze_authenticity roomy (constant_model (GenText (Some sample_answer)))
    (mkRequest false (Raise BadRequest)) =
    ([], mkResponse 400 (error_body (py "Content-Type must be application/json"))).
Proof.
  apply content_type_checked_first. reflexivity.
Defined.

(** X6.  A JSON request whose body is a false value ([null], [false],
    a zero, an empty string, list or object) is answered 400 with "No
    JSON data provided": an empty object never reaches the validator. *)
Theorem false_body_gives_400
    (I : interpreter) (model : model_client) (req : request) (data : pyval) :
  is_json req = true ->
  get_json req = Ok data ->
  truthy data = false ->
  analyze_authenticity I model req =
    ([], mkResponse 400 (error_body (py "No JSON data provided"))).
Proof.
  intros Hj Hd Ht. unfold analyze_authenticity, analyze_body.
  rewrite Hj, Hd. simpl negb. cbv iota. rewrite bind_lift_ok, Ht. reflexivity.
Qed.

Lemma false_body_gives_400_witness :
  analyze_authenticity roomy (constant_model GenRaises) (mkRequest true (Ok (PDict []))) =
    ([], mkResponse 400 (error_body (py "No JSON data provided"))).
Proof.
  apply (false_body_gives_400 _ _ _ (PDict [])); reflexivity.
Defined.

(** X7.  A JSON request whose body cannot be decoded, or is a true
    value other than an object (a non-empty list or string, a non-zero
    number, [true]), is answered 500 with the unexpected-error message,
    not 400; nothing is called. *)
Theorem unusable_body_gives_500
    (I : interpreter) (model : model_client) (req : request) :
  is_json req = true ->
  match get_json req with
  | Raise _ => True
  | Ok data => truthy data = true /\ is_dict data = false
  end ->
  analyze_authenticity I model req =
    ([], mkResponse 500
           (error_body (py "An unexpected error occurred. Please try again."))).
Proof.
  intros Hj H. unfold analyze_authenticity, analyze_body.
  rewrite Hj. simpl negb. cbv iota.
  destruct (get_json req) as [data|e]; [|reflexivity].
  destruct H as [Ht Hd]. rewrite bind_lift_ok, Ht. simpl negb. cbv iota.
  destruct data; try discriminate; reflexivity.
Qed.

Lemma unusable_body_gives_500_witness :
  analyze_authenticity roomy (constant_model GenRaises)
    (mkRequest true (Ok (PList [PStr sample_article]))) =
    ([], mkResponse 500
           (error_body (py "An unexpected error occurred. Please try again."))).
Proof.
  apply unusable_body_gives_500; [reflexivity | split; reflexivity].
Defined.

(** X8.  The handler reads the body only through the trimmed text: two
    JSON requests with object bodies that are both empty or both not,
    and whose texts are equal after trimming, get the same treatment,
    whatever else differs in the bodies. *)
Theorem handler_reads_trimmed_text
    (I : interpreter) (model : model_client) (req req' : request)
    (d d' : dict) (text text' : str) :
  is_json req = true -> is_json req' = true ->
  get_json req = Ok (PDict d) -> get_json req' = Ok (PDict d') ->
  truthy (PDict d) = truthy (PDict d') ->
  field d (py "text") (PStr (py "")) = PStr text ->
  field d' (py "text") (PStr (py "")) = PStr text' ->
  strip text = strip text' ->
  analyze_authenticity I model req = analyze_authenticity I model req'.
Proof.
  intros Hj Hj' Hd Hd' Ht Hf Hf' Hs.
  rewrite (analyze_authenticity_object I model req d text Hj Hd Hf).
  rewrite (analyze_authenticity_object I model req' d' text' Hj' Hd' Hf').
  now rewrite Ht, Hs.
Qed.

Lemma handler_reads_trimmed_text_witness :
  analyze_authenticity roomy (constant_model (GenText (Some sample_answer)))
    (post_text sample_article) =
  analyze_authenticity roomy (constant_model (GenText (Some sample_answer)))
    (mkRequest true
       (Ok (PDict [(py "lang", PStr (py "en"));
                   (py "text", PStr (strip sample_article))]))).
Proof.
  apply (handler_reads_trimmed_text _ _ _ _
           [(py "text", PStr sample_article)]
           [(py "lang", PStr (py "en")); (py "text", PStr (strip sample_article))]
           sample_article (strip sample_article)); reflexivity.
Defined.

(** ** Surrounding whitespace *)

Lemma lstrip_spaces (w : str) : forallb isspace w = true -> lstrip w = [].
Proof.
  induction w as [|c w IH]; simpl; intros H; [reflexivity|].
  apply andb_true_iff in H as [Hc Hw]. rewrite Hc. now apply IH.
Qed.

Lemma lstrip_skips_spaces (w s : str) :
  forallb isspace w = true -> lstrip (w ++ s) = lstrip s.
Proof.
  induction w as [|c w IH]; simpl; intros H; [reflexivity|].
  apply andb_true_iff in H as [Hc Hw]. rewrite Hc. now apply IH.
Qed.

Lemma rstrip_spaces (w : str) : forallb isspace w = true -> rstrip w = [].
Proof.
  induction w as [|c w IH]; simpl; intros H; [reflexivity|].
  apply andb_true_iff in H as [Hc Hw]. now rewrite (IH Hw), Hc.
Qed.

Lemma rstrip_skips_spaces (s w : str) :
  forallb isspace w = true -> rstrip (s ++ w) = rstrip s.
Proof.
  intros Hw. induction s as [|c s IH]; simpl.
  - now apply rstrip_spaces.
  - now rewrite IH.
Qed.

Lemma strip_padding (w1 s w2 : str) :
  forallb isspace w1 = true -> forallb isspace w2 = true ->
  strip (w1 ++ s ++ w2) = strip s.
Proof.
  intros H1 H2. unfold strip. rewrite (lstrip_skips_spaces _ _ H1).
  induction s as [|c s IH]; simpl.
  - now rewrite (lstrip_spaces _ H2).
  - destruct (isspace c); [exact IH|].
    exact (rstrip_skips_spaces (c :: s) w2 H2).
Qed.

Lemma space_is_no_brace (c : char) :
  isspace c = true -> (c =? 123)%N = false /\ (c =? 125)%N = false.
Proof.
  intros H. split.
  - destruct (N.eqb_spec c 123) as [->|]; [discriminate | reflexivity].
  - destruct (N.eqb_spec c 125) as [->|]; [discriminate | reflexivity].
Qed.

Lemma from_first_open_skips (w s : str) :
  existsb (fun c => (c =? 123)%N) w = false ->
  from_first_open (w ++ s) = from_first_open s.
Proof.
  induction w as [|c w IH]; simpl; intros H; [reflexivity|].
  apply orb_false_iff in H as [Hc Hw]. rewrite Hc. now apply IH.
Qed.

Lemma upto_last_close_skips (s w : str) :
  existsb (fun c => (c =? 125)%N) w = false ->
  upto_last_close (s ++ w) = upto_last_close s.
Proof.
  intros Hw. induction s as [|c s IH]; simpl.
  - now apply upto_last_close_none.
  - now rewrite IH.
Qed.

Lemma from_first_open_app (s w r : str) :
  from_first_open s = Some r -> from_first_open (s ++ w) = Some (r ++ w).
Proof.
  induction s as [|c s IH]; simpl; [discriminate|].
  destruct (c =? 123)%N.
  - intros H. injection H as <-. reflexivity.
  - exact IH.
Qed.

Lemma spaces_no_open (w : str) :
  forallb isspace w = true -> existsb (fun c => (c =? 123)%N) w = false.
Proof.
  induction w as [|c w IH]; simpl; intros H; [reflexivity|].
  apply andb_true_iff in H as [Hc Hw].
  destruct (space_is_no_brace c Hc) as [-> _]. now apply IH.
Qed.

Lemma spaces_no_close (w : str) :
  forallb isspace w = true -> existsb (fun c => (c =? 125)%N) w = false.
Proof.
  induction w as [|c w IH]; simpl; intros H; [reflexivity|].
  apply andb_true_iff in H as [Hc Hw].
  destruct (space_is_no_brace c Hc) as [_ ->]. now apply IH.
Qed.

Lemma from_first_open_head (s r : str) :
  from_first_open s = Some r -> exists t, r = 123%N :: t.
Proof.
  induction s as [|c s IH]; simpl; [discriminate|].
  destruct (N.eqb_spec c 123) as [->|].
  - intros H. injection H as <-. now exists s.
  - exact IH.
Qed.

Lemma from_first_open_none_inv (s : str) :
  from_first_open s = None -> existsb (fun c => (c =? 123)%N) s = false.
Proof.
  induction s as [|c s IH]; simpl; [reflexivity|].
  destruct (c =? 123)%N; [discriminate|]. exact IH.
Qed.

(** Text without a closing brace after a match does not change it, and
    neither does text without an opening brace before it. *)
Lemma search_braces_padding (w1 s w2 : str) :
  existsb (fun c => (c =? 123)%N) w1 = false ->
  existsb (fun c => (c =? 125)%N) w2 = false ->
  search_braces (w1 ++ s ++ w2) = search_braces s.
Proof.
  intros H1 H2. unfold search_braces.
  rewrite (from_first_open_skips _ _ H1).
  destruct (from_first_open s) as [r|] eqn:Hr.
  - rewrite (from_first_open_app _ w2 _ Hr).
    destruct (from_first_open_head _ _ Hr) as [t ->].
    change ((123%N :: t) ++ w2) with (123%N :: (t ++ w2)). cbv iota.
    now rewrite (upto_last_close_skips _ _ H2).
  - rewrite (from_first_open_skips _ _ (from_first_open_none_inv _ Hr)).
    destruct (from_first_open w2) as [[|c t]|] eqn:E; try reflexivity.
    destruct (from_first_open_suffix _ _ E) as [p ->].
    rewrite existsb_app in H2. apply orb_false_iff in H2 as [_ H2].
    simpl in H2. apply orb_false_iff in H2 as [_ H2].
    now rewrite (upto_last_close_none _ H2).
Qed.

(** X9.  Whitespace around the text never changes the validator's
    answer: neither the verdict nor the message. *)
Theorem validate_article_text_padding (w1 text w2 : str) :
  forallb isspace w1 = true -> forallb isspace w2 = true ->
  validate_article_text (w1 ++ text ++ w2) = validate_article_text text.
Proof.
  intros H1 H2.
  rewrite <- (validate_article_text_strip (w1 ++ text ++ w2)).
  rewrite (strip_padding _ _ _ H1 H2).
  apply validate_article_text_strip.
Qed.

Lemma validate_article_text_padding_witness :
  validate_article_text (py "  " ++ py "Breaking news" ++ [10; 160; 8232]%N) =
  validate_article_text (py "Breaking news").
Proof.
  apply validate_article_text_padding; reflexivity.
Defined.

(** X10.  Whitespace around the model's answer never changes what the
    extractor returns. *)
Theorem extract_json_from_response_padding
    (I : interpreter) (w1 text w2 : str) :
  forallb isspace w1 = true -> forallb isspace w2 = true ->
  extract_json_from_response I (w1 ++ text ++ w2) =
    extract_json_from_response I text.
Proof.
  intros H1 H2. unfold extract_json_from_response, fallback.
  rewrite (strip_padding _ _ _ H1 H2).
  rewrite (search_braces_padding _ _ _ (spaces_no_open _ H1) (spaces_no_close _ H2)).
  reflexivity.
Qed.

Lemma extract_json_from_response_padding_witness :
  extract_json_from_response roomy ([10; 10]%N ++ vague_answer ++ py "  ") =
  extract_json_from_response roomy vague_answer.
Proof.
  apply extract_json_from_response_padding; reflexivity.
Defined.

(** ** The brace search and the extractor *)

Lemma from_first_open_split (s r : str) :
  from_first_open s = Some r ->
  exists p t,
    s = p ++ r /\ r = 123%N :: t /\ existsb (fun c => (c =? 123)%N) p = false.
Proof.
  revert r. induction s as [|c s IH]; simpl; intros r H; [discriminate|].
  destruct (N.eqb_spec c 123) as [->|Hc].
  - injection H as <-. now exists [], s.
  - destruct (IH r H) as (p & t & -> & -> & Hp).
    exists (c :: p), t. repeat split. simpl.
    apply N.eqb_neq in Hc. now rewrite Hc.
Qed.

Lemma upto_last_close_split (s m : str) :
  upto_last_close s = Some m ->
  exists inner q,
    s = m ++ q /\ m = inner ++ [125%N] /\
    existsb (fun c => (c =? 125)%N) q = false.
Proof.
  revert m. induction s as [|c s IH]; simpl; intros m H; [discriminate|].
  destruct (upto_last_close s) as [m'|] eqn:E.
  - injection H as <-. destruct (IH m' eq_refl) as (inner & q & -> & -> & Hq).
    exists (c :: inner), q. repeat split. exact Hq.
  - destruct (N.eqb_spec c 125) as [->|Hc]; [|discriminate].
    injection H as <-. exists [], s. repeat split.
    clear IH. induction s as [|x s IH]; simpl in *; [reflexivity|].
    destruct (upto_last_close s); [discriminate|].
    destruct (x =? 125)%N; [discriminate|]. now apply IH.
Qed.

Lemma upto_last_close_some (s : str) :
  existsb (fun c => (c =? 125)%N) s = true -> upto_last_close s <> None.
Proof.
  induction s as [|c s IH]; simpl; intros H; [discriminate|].
  destruct (upto_last_close s); [discriminate|].
  destruct (c =? 125)%N; [discriminate|]. simpl in H. now apply IH in H.
Qed.

Lemma upto_last_close_exact (inner q : str) :
  existsb (fun c => (c =? 125)%N) q = false ->
  upto_last_close (inner ++ 125%N :: q) = Some (inner ++ [125%N]).
Proof.
  intros Hq. induction inner as [|c inner IH]; simpl.
  - now rewrite (upto_last_close_none _ Hq).
  - now rewrite IH.
Qed.

(** X11.  What the brace search finds is a piece of the text that
    starts with an opening brace and ends with a closing brace; no
    opening brace stands before it and no closing brace after it: it
    runs from the first opening brace to the last closing brace. *)
Theorem search_braces_first_to_last (s m : str) :
  search_braces s = Some m ->
  exists before inner after_,
    s = before ++ m ++ after_ /\
    m = 123%N :: inner ++ [125%N] /\
    existsb (fun c => (c =? 123)%N) before = false /\
    existsb (fun c => (c =? 125)%N) after_ = false.
Proof.
  unfold search_braces. intros H.
  destruct (from_first_open s) as [r|] eqn:Hr; [|discriminate].
  destruct (from_first_open_split _ _ Hr) as (p & t & -> & -> & Hp).
  destruct (upto_last_close t) as [m'|] eqn:Hm; [|discriminate].
  injection H as <-.
  destruct (upto_last_close_split _ _ Hm) as (inner & q & -> & -> & Hq).
  exists p, inner, q. repeat split; assumption.
Qed.

Lemma search_braces_first_to_last_witness :
  exists before inner after_,
    py "Sure: {}} and {more} text { " = before ++ py "{}} and {more}" ++ after_ /\
    py "{}} and {more}" = 123%N :: inner ++ [125%N] /\
    existsb (fun c => (c =? 123)%N) before = false /\
    existsb (fun c => (c =? 125)%N) after_ = false.
Proof.
  apply (search_braces_first_to_last (py "Sure: {}} and {more} text { ")).
  reflexivity.
Defined.

Lemma existsb_close (x y : str) :
  existsb (fun c => (c =? 125)%N) (x ++ 125%N :: y) = true.
Proof.
  rewrite existsb_app. simpl. apply orb_true_r.
Qed.

(** X12.  The brace search finds nothing exactly when no closing brace
    follows an opening brace anywhere in the text. *)
Theorem search_braces_none_iff (s : str) :
  search_braces s = None <->
  ~ exists a b c, s = a ++ 123%N :: b ++ 125%N :: c.
Proof.
  split.
  - intros H (a & b & c & ->).
    unfold search_braces in H.
    destruct (from_first_open (a ++ 123%N :: b ++ 125%N :: c)) as [r|] eqn:Hr.
    + destruct (from_first_open_split _ _ Hr) as (p & t & Hs & -> & Hp).
      assert (Ht : existsb (fun x => (x =? 125)%N) t = true).
      { clear H Hr. revert a Hs.
        induction p as [|x p IH]; intros a Hs.
        - destruct a as [|y a]; simpl in Hs.
          + injection Hs as <-. apply existsb_close.
          + injection Hs as _ <-.
            change (a ++ 123%N :: b ++ 125%N :: c)
              with (a ++ (123%N :: b) ++ 125%N :: c).
            rewrite app_assoc. apply existsb_close.
        - simpl in Hp. apply orb_false_iff in Hp as [Hx Hp].
          destruct a as [|y a]; simpl in Hs.
          + injection Hs as <- _. discriminate.
          + injection Hs as _ Hs. now apply (IH Hp a). }
      apply upto_last_close_some in Ht.
      destruct (upto_last_close t); [discriminate | congruence].
    + apply from_first_open_none_inv in Hr.
      rewrite existsb_app in Hr. simpl in Hr.
      now rewrite orb_true_r in Hr.
  - intros H. destruct (search_braces s) as [m|] eqn:E; [|reflexivity].
    exfalso. apply H. unfold search_braces in E.
    destruct (from_first_open s) as [r|] eqn:Hr; [|discriminate].
    destruct (from_first_open_split _ _ Hr) as (p & t & -> & -> & Hp).
    destruct (upto_last_close t) as [m'|] eqn:Hm; [|discriminate].
    destruct (upto_last_close_split _ _ Hm) as (inner & q & -> & -> & Hq).
    exists p, inner, q. now rewrite <- app_assoc.
Qed.

Lemma search_braces_none_iff_witness :
  ~ exists a b c, py "} closing before opening {" = a ++ 123%N :: b ++ 125%N :: c.
Proof.
  apply (search_braces_none_iff (py "} closing before opening {")).
  reflexivity.
Defined.

Lemma search_braces_object (inner : str) :
  search_braces (123%N :: inner ++ [125%N]) = Some (123%N :: inner ++ [125%N]).
Proof.
  unfold search_braces.
  change (from_first_open (123%N :: inner ++ [125%N]))
    with (Some (123%N :: inner ++ [125%N])).
  cbv iota.
  exact (f_equal (fun o : option str =>
                    match o with
                    | Some p => Some (123%N :: p)
                    | None => None
                    end)
           (upto_last_close_exact inner [] eq_refl)).
Qed.

(** X13.  Prose around a JSON value in braces is ignored, as long as no
    opening brace stands before the value and no closing brace after
    it: when decoding the whole text fails with [JSONDecodeError] and
    the value in braces is decoded, the extractor returns that value. *)
Theorem extract_json_from_response_wrapped
    (I : interpreter) (before inner after_ : str) (v : pyval) :
  existsb (fun c => (c =? 123)%N) before = false ->
  existsb (fun c => (c =? 125)%N) after_ = false ->
  json_loads I (strip (before ++ (123%N :: inner ++ [125%N]) ++ after_)) =
    Raise JSONDecodeError ->
  json_loads I (123%N :: inner ++ [125%N]) = Ok v ->
  extract_json_from_response I (before ++ (123%N :: inner ++ [125%N]) ++ after_) =
    Ok v.
Proof.
  intros Hb Ha Hs Hv. unfold extract_json_from_response.
  rewrite Hs, (search_braces_padding _ _ _ Hb Ha), search_braces_object.
  now rewrite Hv.
Qed.

Lemma extract_json_from_response_wrapped_witness :
  extract_json_from_response roomy
    (py "Here you go: " ++ (123%N :: member "verdict" "FAKE" ++ [125%N]) ++ py " thanks")
  = Ok (PDict [(py "verdict", PStr (py "FAKE"))]).
Proof.
  apply extract_json_from_response_wrapped; reflexivity.
Defined.

Lemma normalize_fallback (I : interpreter) (response_text : str) :
  normalize I (fallback response_text) = Ok (fallback response_text).
Proof. reflexivity. Qed.

(** X14.  For a request that passes validation, a non-empty answer of
    the model on which both decoding attempts fail with
    [JSONDecodeError] is not an error: the handler answers 200 with the
    fallback record, unchanged by the normalisation. *)
Theorem undecodable_answer_gives_200
    (I : interpreter) (model : model_client) (req : request) (text answer : str) :
  valid_request req text ->
  model (create_fake_news_analysis_prompt (strip text)) = GenText (Some answer) ->
  str_truthy answer = true ->
  json_loads I (strip answer) = Raise JSONDecodeError ->
  json_of_braces I answer = Raise JSONDecodeError ->
  analyze_authenticity I model req =
    ([CallModel (create_fake_news_analysis_prompt (strip text));
      CallExtract answer],
     mkResponse 200 (fallback answer)).
Proof.
  intros Hv Hm Ht H1 H2. unfold analyze_authenticity.
  rewrite (analyze_body_valid _ _ _ _ Hv), (analyze_article_text _ _ _ _ Hm Ht).
  rewrite (extract_fallback_eq _ _ H1 H2). unfold and_then.
  now rewrite normalize_fallback.
Qed.

Lemma undecodable_answer_gives_200_witness :
  respond roomy (constant_model (GenText (Some (py "I cannot {judge this article."))))
    (post_text sample_article) =
    mkResponse 200 (fallback (py "I cannot {judge this article.")).
Proof.
  unfold respond.
  rewrite (undecodable_answer_gives_200 roomy
             (constant_model (GenText (Some (py "I cannot {judge this article."))))
             (post_text sample_article) sample_article
             (py "I cannot {judge this article."));
    [reflexivity | valid_by_evaluation | reflexivity | reflexivity
     | reflexivity | reflexivity].
Defined.

(** X15.  Normalising twice is normalising once: a normalised record is
    accepted by the normalisation and returned unchanged. *)
Theorem normalize_idempotent (I : interpreter) (v r : pyval) :
  normalize I v = Ok r -> normalize I r = Ok r.
Proof.
  intros H. destruct (normalize_ok _ _ _ H) as (d & s & c & _ & _ & _ & ->).
  unfold normalize, py_get, and_then, field. simpl.
  replace (Z.min 10 (Z.max 0 (Z.min 10 (Z.max 0 s)))) with (Z.min 10 (Z.max 0 s)) by lia.
  replace (Z.min 100 (Z.max 0 (Z.min 100 (Z.max 0 c)))) with (Z.min 100 (Z.max 0 c)) by lia.
  reflexivity.
Qed.

Lemma normalize_idempotent_witness :
  normalize roomy (PDict [(py "credibility_score", PInt 10);
                    (py "verdict", PStr (py "UNKNOWN"));
                    (py "confidence", PInt 100);
                    (py "analysis", PStr (py "Analysis completed"));
                    (py "red_flags", PStr (py "No major red flags identified"));
                    (py "credibility_factors",
                       PStr (py "Standard credibility markers present"));
                    (py "verification_tips",
                       PStr (py "Cross-check with multiple reliable sources"))]) =
  Ok (PDict [(py "credibility_score", PInt 10);
             (py "verdict", PStr (py "UNKNOWN"));
             (py "confidence", PInt 100);
             (py "analysis", PStr (py "Analysis completed"));
             (py "red_flags", PStr (py "No major red flags identified"));
             (py "credibility_factors",
                PStr (py "Standard credibility markers present"));
             (py "verification_tips",
                PStr (py "Cross-check with multiple reliable sources"))]).
Proof.
  apply (normalize_idempotent roomy
           (PDict [(py "credibility_score", PStr (py "12")); (py "confidence", PInt 250)])).
  reflexivity.
Defined.

(** ** The normalised record *)

(** X16.  The normalisation copies the five free fields as they are,
    whatever their type (the verdict is not restricted to the labels of
    the prompt), and puts the fixed default where a field is missing;
    keys other than the seven are dropped. *)
Theorem normalize_passes_fields (I : interpreter) (d r : dict) :
  normalize I (PDict d) = Ok (PDict r) ->
  dict_get r (py "verdict") = Some (field d (py "verdict") (PStr (py "UNKNOWN"))) /\
  dict_get r (py "analysis") =
    Some (field d (py "analysis") (PStr (py "Analysis completed"))) /\
  dict_get r (py "red_flags") =
    Some (field d (py "red_flags") (PStr (py "No major red flags identified"))) /\
  dict_get r (py "credibility_factors") =
    Some (field d (py "credibility_factors")
            (PStr (py "Standard credibility markers present"))) /\
  dict_get r (py "verification_tips") =
    Some (field d (py "verification_tips")
            (PStr (py "Cross-check with multiple reliable sources"))) /\
  (forall key, has_key r key = true -> In key result_fields).
Proof.
  intros H. destruct (normalize_ok _ _ _ H) as (d' & s & c & E & _ & _ & R).
  injection E as <-. injection R as ->.
  do 5 (split; [reflexivity|]).
  intros key. unfold has_key. cbn [dict_get].
  repeat match goal with
         | |- context [str_eqb ?k key] =>
             let E := fresh "E" in
             destruct (str_eqb k key) eqn:E;
             [ apply str_eqb_eq in E; subst key; intros _;
               unfold result_fields; simpl; tauto
             | cbv iota ]
         end.
  discriminate.
Qed.

Lemma normalize_passes_fields_witness :
  dict_get
    [ (py "credibility_score", PInt 3);
      (py "verdict", PList [PStr (py "maybe")]);
      (py "confidence", PInt 50);
      (py "analysis", PStr (py "Analysis completed"));
      (py "red_flags", PStr (py "No major red flags identified"));
      (py "credibility_factors", PStr (py "Standard credibility markers present"));
      (py "verification_tips", PStr (py "Cross-check with multiple reliable sources")) ]
    (py "verdict") =
  Some (field [(py "credibility_score", PInt 3);
               (py "verdict", PList [PStr (py "maybe")]);
               (py "source", PStr (py "a blog"))]
          (py "verdict") (PStr (py "UNKNOWN"))).
Proof.
  apply (normalize_passes_fields roomy
           [(py "credibility_score", PInt 3);
            (py "verdict", PList [PStr (py "maybe")]);
            (py "source", PStr (py "a blog"))]).
  reflexivity.
Defined.



(** ** The prompt *)

Lemma prompt_decompose (article_text : str) :
  create_fake_news_analysis_prompt article_text =
    prompt_header ++ article_text ++ prompt_footer.
Proof.
  unfold create_fake_news_analysis_prompt, line.
  rewrite <- (app_assoc article_text [10%N]).
  reflexivity.
Qed.

Lemma startswith_app (n b : str) : startswith n (n ++ b) = true.
Proof.
  induction n as [|c n IH]; simpl; [reflexivity|].
  now rewrite N.eqb_refl, IH.
Qed.

Lemma contains_cons (n : str) (c : char) (t : str) :
  contains n (c :: t) = startswith n (c :: t) || contains n t.
Proof. reflexivity. Qed.

Lemma contains_prefix (n b : str) : contains n (n ++ b) = true.
Proof.
  destruct (n ++ b) as [|c t] eqn:E.
  - destruct n; [reflexivity | discriminate].
  - rewrite contains_cons, <- E, startswith_app. reflexivity.
Qed.

Lemma contains_app_r (n a b : str) :
  contains n b = true -> contains n (a ++ b) = true.
Proof.
  intros H. induction a as [|c a IH]; [exact H|].
  change ((c :: a) ++ b) with (c :: (a ++ b)).
  rewrite contains_cons, IH. apply orb_true_r.
Qed.

(** X18.  The prompt is the fixed instructions, the article exactly as
    given, and the fixed description of the answer: the article occurs
    in the prompt unchanged, and the prompt is 1023 characters longer
    than the article. *)
Theorem prompt_embeds_article (article_text : str) :
  create_fake_news_analysis_prompt article_text =
    prompt_header ++ article_text ++ prompt_footer /\
  contains article_text (create_fake_news_analysis_prompt article_text) = true /\
  len (create_fake_news_analysis_prompt article_text) = 1023 + len article_text.
Proof.
  rewrite prompt_decompose. split; [reflexivity|]. split.
  - apply contains_app_r, contains_prefix.
  - unfold len. rewrite !length_app.
    change (List.length prompt_header) with 516%nat.
    change (List.length prompt_footer) with 507%nat. lia.
Qed.

(** X19.  Different articles get different prompts. *)
Theorem prompt_injective (a b : str) :
  create_fake_news_analysis_prompt a = create_fake_news_analysis_prompt b ->
  a = b.
Proof.
  rewrite !prompt_decompose. intros H.
  apply app_inv_head in H. now apply app_inv_tail in H.
Qed.

Lemma prompt_injective_witness : py "same article" = py "same article".
Proof.
  apply prompt_injective. reflexivity.
Defined.

(** X20.  Whatever the article, the prompt asks for each of the seven
    fields the handler reads: every field name occurs in it between
    quotation marks. *)
Theorem prompt_names_result_fields (article_text key : str) :
  In key result_fields ->
  contains (34%N :: key ++ [34%N])
    (create_fake_news_analysis_prompt article_text) = true.
Proof.
  intros H. rewrite prompt_decompose.
  apply contains_app_r, contains_app_r.
  unfold result_fields in H. simpl in H.
  repeat (destruct H as [<-|H]; [vm_compute; reflexivity|]).
  contradiction.
Qed.

Lemma prompt_names_result_fields_witness :
  contains (quoted "verification_tips")
    (create_fake_news_analysis_prompt sample_article) = true.
Proof.
  apply (prompt_names_result_fields sample_article (py "verification_tips")).
  vm_compute. tauto.
Defined.

(** ** Records have unique keys *)

Lemma dict_set_keys (d : dict) (k : str) (v : pyval) :
  NoDup (keys d) -> NoDup (keys (dict_set d k v)).
Proof.
  assert (Hin : forall d x, In x (keys (dict_set d k v)) -> In x (keys d) \/ x = k).
  { clear d. induction d as [|[k' v'] d IH]; simpl; intros x H.
    - destruct H as [<-|[]]. now right.
    - destruct (str_eqb k' k); simpl in H.
      + now left.
      + destruct H as [<-|H]; [now left; left|].
        destruct (IH x H) as [H'| ->]; [left; now right | now right]. }
  induction d as [|[k' v'] d IH]; simpl; intros H.
  - constructor; [intros [] | constructor].
  - inversion H as [|? ? Hn Hd]; subst.
    destruct (str_eqb k' k) eqn:E; simpl.
    + now constructor.
    + constructor; [|now apply IH].
      intros Hc. destruct (Hin d k' Hc) as [Hc'| ->]; [now apply Hn|].
      assert (str_eqb k k = true) by now apply str_eqb_eq.
      congruence.
Qed.

Lemma parse_members_keys (fuel : nat) :
  forall s acc v r,
    parse_members fuel s acc = Scanned v r ->
    NoDup (keys acc) ->
    exists d, v = PDict d /\ NoDup (keys d).
Proof.
  induction fuel as [|fuel IH]; intros s acc v r H Hacc; [discriminate|].
  cbn [parse_members] in H.
  destruct s as [|c t]; [discriminate|].
  destruct (c =? 34)%N; simpl negb in H; cbv iota in H; [|discriminate].
  destruct (scanstring t) as [key r1| |]; try discriminate.
  destruct (skip_ws r1) as [|c2 r2]; [discriminate|].
  destruct (c2 =? 58)%N; simpl negb in H; cbv iota in H; [|discriminate].
  destruct (scan_once fuel (skip_ws r2)) as [v' r3| |]; try discriminate.
  destruct (skip_ws r3) as [|c3 r4]; [discriminate|].
  destruct (c3 =? 125)%N.
  { injection H as <- _. eexists. split; [reflexivity|].
    now apply dict_set_keys. }
  destruct (c3 =? 44)%N; [|discriminate].
  apply (IH _ _ _ _ H). now apply dict_set_keys.
Qed.

Lemma parse_elements_list (fuel : nat) :
  forall s acc v r,
    parse_elements fuel s acc = Scanned v r -> is_dict v = false.
Proof.
  induction fuel as [|fuel IH]; intros s acc v r H; [discriminate|].
  cbn [parse_elements] in H.
  destruct (scan_once fuel s) as [v' r1| |]; try discriminate.
  destruct (skip_ws r1) as [|c r2]; [discriminate|].
  destruct (c =? 93)%N.
  { injection H as <- _. reflexivity. }
  destruct (c =? 44)%N; [|discriminate].
  exact (IH _ _ _ _ H).
Qed.

Lemma match_number_no_dict (s : str) (v : pyval) (r : str) :
  match_number s = Scanned v r -> is_dict v = false.
Proof.
  unfold match_number.
  destruct (match s with
            | c :: t => if (c =? 45)%N then (true, t) else (false, s)
            | [] => (false, s)
            end) as [negative s1].
  destruct s1 as [|c t]; [discriminate|].
  destruct (is_digit c); simpl negb; cbv iota; [|discriminate].
  destruct (if (c =? 48)%N then ([c], t)
            else let '(ds, r0) := span_digits t in (c :: ds, r0))
    as [int_digits r0].
  destruct (match r0 with
            | p :: f :: r' =>
                if (p =? 46)%N && is_digit f
                then let '(fs, r'') := span_digits r' in (f :: fs, r'')
                else ([], r0)
            | _ => ([], r0)
            end) as [frac r1].
  match goal with
  | |- (let '(exponent, r2) := ?e in _) = _ -> _ => destruct e as [exponent r2]
  end.
  destruct frac; destruct exponent; intros H; injection H as <- _; reflexivity.
Qed.

Lemma scan_once_keys (fuel : nat) (s : str) (d : dict) (r : str) :
  scan_once fuel s = Scanned (PDict d) r -> NoDup (keys d).
Proof.
  destruct fuel as [|fuel]; [discriminate|]. cbn [scan_once].
  destruct s as [|c t]; [discriminate|].
  destruct (c =? 34)%N.
  { destruct (scanstring t); discriminate. }
  destruct (c =? 123)%N.
  { destruct (skip_ws t) as [|c' t']; [discriminate|].
    destruct (c' =? 125)%N.
    - intros H. injection H as <- _. constructor.
    - intros H. destruct (parse_members_keys _ _ _ _ _ H) as (d' & E & Hd).
      + constructor.
      + now injection E as ->. }
  destruct (c =? 91)%N.
  { destruct (skip_ws t) as [|c' t']; [discriminate|].
    destruct (c' =? 93)%N; [discriminate|].
    intros H. apply parse_elements_list in H. discriminate. }
  destruct (after (py "null") (c :: t)); [discriminate|].
  destruct (after (py "true") (c :: t)); [discriminate|].
  destruct (after (py "false") (c :: t)); [discriminate|].
  destruct (after (py "NaN") (c :: t)); [discriminate|].
  destruct (after (py "Infinity") (c :: t)); [discriminate|].
  destruct (after (py "-Infinity") (c :: t)); [discriminate|].
  intros H. apply match_number_no_dict in H. discriminate.
Qed.

Lemma json_decode_keys (s : str) (d : dict) :
  json_decode s = Some (PDict d) -> NoDup (keys d).
Proof.
  unfold json_decode.
  destruct (scan_once (2 + 2 * List.length s) (skip_ws s)) as [v r| |] eqn:E;
    try discriminate.
  destruct (skip_ws r); [|discriminate].
  intros H. injection H as ->. exact (scan_once_keys _ _ _ _ E).
Qed.

Lemma json_loads_keys (I : interpreter) (s : str) (d : dict) :
  json_loads I s = Ok (PDict d) -> NoDup (keys d).
Proof.
  intros H. apply json_loads_ok in H as [_ H]. exact (json_decode_keys _ _ H).
Qed.

(** X21.  A record returned by the extractor never has a key twice,
    even when the model's answer repeats a key (the last value then
    wins, as in Python). *)
Theorem extract_json_from_response_unique_keys
    (I : interpreter) (response_text : str) (d : dict) :
  extract_json_from_response I response_text = Ok (PDict d) -> NoDup (keys d).
Proof.
  unfold extract_json_from_response.
  assert (Hf : Ok (fallback response_text) = Ok (PDict d) -> NoDup (keys d)).
  { unfold fallback. intros H. injection H as <-.
    unfold keys. simpl map.
    repeat (constructor; [simpl; intuition discriminate|]). constructor. }
  destruct (json_loads I (strip response_text)) as [v|e] eqn:E1.
  { intros H. injection H as ->. exact (json_loads_keys _ _ _ E1). }
  destruct e; try discriminate.
  destruct (search_braces response_text) as [m|]; [|exact Hf].
  destruct (json_loads I m) as [v|e] eqn:E2.
  { intros H. injection H as ->. exact (json_loads_keys _ _ _ E2). }
  destruct e; try discriminate. exact Hf.
Qed.

Lemma extract_json_from_response_unique_keys_witness :
  NoDup (keys [(py "verdict", PStr (py "FAKE")); (py "confidence", PInt 7)]).
Proof.
  apply (extract_json_from_response_unique_keys roomy
           (py "{" ++ member "verdict" "MIXED" ++ py ", " ++
            quoted "confidence" ++ py ": 7, " ++
            member "verdict" "FAKE" ++ py "}")).
  reflexivity.
Defined.

(** ** The model is consulted on one prompt *)

(** X22.  For a request that passes validation, the handler depends on
    the model only through what it does on the prompt of the trimmed
    text: two models that agree on that prompt give the same calls and
    the same answer. *)
Theorem model_consulted_on_one_prompt
    (I : interpreter) (model model' : model_client) (req : request) (text : str) :
  valid_request req text ->
  model (create_fake_news_analysis_prompt (strip text)) =
    model' (create_fake_news_analysis_prompt (strip text)) ->
  analyze_authenticity I model req = analyze_authenticity I model' req.
Proof.
  intros Hv Hm. unfold analyze_authenticity.
  rewrite !(analyze_body_valid _ _ _ _ Hv). unfold analyze_article.
  now rewrite !call_model_eq, Hm.
Qed.

Lemma model_consulted_on_one_prompt_witness :
  analyze_authenticity roomy
    (fun prompt =>
       if str_eqb prompt (create_fake_news_analysis_prompt (strip sample_article))
       then GenText (Some sample_answer) else GenRaises)
    (post_text sample_article) =
  analyze_authenticity roomy (constant_model (GenText (Some sample_answer)))
    (post_text sample_article).
Proof.
  apply (model_consulted_on_one_prompt _ _ _ _ sample_article).
  - valid_by_evaluation.
  - reflexivity.
Defined.

Lemma validate_accepts_length (text : str) :
  fst (validate_article_text text) = true -> 10 <= len (strip text) <= 50000.
Proof.
  unfold validate_article_text.
  destruct (negb (str_truthy text) || negb (str_truthy (strip text)));
    [discriminate|].
  destruct (Z.ltb_spec (len (strip text)) 10); [discriminate|].
  unfold Z.gtb.
  destruct (Z.compare_spec (len (strip text)) 50000); simpl;
    try discriminate; lia.
Qed.

(** X23.  Whenever the model is called, its prompt is built from an
    article without surrounding whitespace of 10 to 50000 characters:
    no prompt is shorter than 1033 or longer than 51023 characters. *)
Theorem model_prompt_bounded
    (I : interpreter) (model : model_client) (req : request) (prompt : str) :
  In (CallModel prompt) (fst (analyze_authenticity I model req)) ->
  exists article_text,
    prompt = create_fake_news_analysis_prompt article_text /\
    strip article_text = article_text /\
    10 <= len article_text <= 50000 /\
    1033 <= len prompt <= 51023.
Proof.
  intros H.
  assert (Hv : exists text,
             valid_request req text /\
             prompt = create_fake_news_analysis_prompt (strip text)).
  { destruct (analyze_authenticity_paths I model req)
      as [(m & E & _) | [(E & _) | [(t & V & _ & E) | (t & a & V & _ & _ & E)]]];
      rewrite E in H; simpl in H.
    - contradiction.
    - contradiction.
    - destruct H as [H|[]]. injection H as <-. now exists t.
    - destruct H as [H|[H|[]]]; [|discriminate]. injection H as <-. now exists t. }
  destruct Hv as (text & (_ & d & _ & _ & Hok) & ->).
  apply validate_accepts_length in Hok.
  exists (strip text). split; [reflexivity|]. split; [apply strip_idem|].
  split; [exact Hok|].
  rewrite prompt_decompose. unfold len in *. rewrite !length_app.
  change (List.length prompt_header) with 516%nat.
  change (List.length prompt_footer) with 507%nat. lia.
Qed.

Lemma model_prompt_bounded_witness :
  exists article_text,
    create_fake_news_analysis_prompt (strip sample_article) =
      create_fake_news_analysis_prompt article_text /\
    strip article_text = article_text /\
    10 <= len article_text <= 50000 /\
    1033 <= len (create_fake_news_analysis_prompt (strip sample_article)) <= 51023.
Proof.
  apply (model_prompt_bounded roomy (constant_model GenRaises)
           (post_text sample_article)).
  vm_compute. left. reflexivity.
Defined.

(** X24.  For a request that passes validation, a non-empty answer of
    the model on which the decoder stops on a limit of the interpreter,
    at the trimmed answer or at the brace span once the trimmed answer
    is found not to be JSON, makes the extractor raise the exception of
    that limit; the handler catches it and answers 500 with the parse
    failure message, after one call of the model and one of the
    extractor. *)
Theorem decoder_limit_gives_500
    (I : interpreter) (model : model_client) (req : request)
    (text answer : str) (f : fault) :
  valid_request req text ->
  model (create_fake_news_analysis_prompt (strip text)) = GenText (Some answer) ->
  str_truthy answer = true ->
  decoder_fault I (strip answer) = Some f \/
  (json_loads I (strip answer) = Raise JSONDecodeError /\
   exists json_match,
     search_braces answer = Some json_match /\
     decoder_fault I json_match = Some f) ->
  extract_json_from_response I answer = Raise (fault_exn f) /\
  analyze_authenticity I model req =
    ([CallModel (create_fake_news_analysis_prompt (strip text));
      CallExtract answer],
     parse_failure_response).
Proof.
  intros Hv Hm Ht Hf.
  pose proof (extract_fault_eq I answer f Hf) as He.
  split; [exact He|]. unfold analyze_authenticity.
  rewrite (analyze_body_valid _ _ _ _ Hv), (analyze_article_text _ _ _ _ Hm Ht), He.
  reflexivity.
Qed.

Lemma decoder_limit_gives_500_witness :
  extract_json_from_response digit_limited long_score_answer = Raise ValueError /\
  analyze_authenticity digit_limited
    (constant_model (GenText (Some long_score_answer))) (post_text sample_article) =
    ([CallModel (create_fake_news_analysis_prompt (strip sample_article));
      CallExtract long_score_answer],
     parse_failure_response).
Proof.
  apply (decoder_limit_gives_500 digit_limited
           (constant_model (GenText (Some long_score_answer)))
           (post_text sample_article) sample_article long_score_answer DigitLimit).
  - valid_by_evaluation.
  - reflexivity.
  - reflexivity.
  - left. vm_compute. reflexivity.
Defined.

(** X25.  From the request to the answer: for a request that passes
    validation, when the trimmed answer of the model is a JSON object of
    the grammar with exactly the seven fields of the schema and the
    decoder stops on no limit of the interpreter, the handler answers
    200 with the score of the text clamped to [0, 10], its confidence
    clamped to [0, 100], and its five texts unchanged; no default is
    used. *)
Theorem wellformed_answer_gives_200
    (I : interpreter) (model : model_client) (req : request)
    (text answer : str) (d : dict) :
  valid_request req text ->
  model (create_fake_news_analysis_prompt (strip text)) = GenText (Some answer) ->
  object_text (strip answer) d ->
  matches_schema d ->
  decoder_fault I (strip answer) = None ->
  exists score confidence verdict analysis red_flags factors tips,
    dict_get d (py "credibility_score") = Some (PInt score) /\
    dict_get d (py "verdict") = Some (PStr verdict) /\
    dict_get d (py "confidence") = Some (PInt confidence) /\
    dict_get d (py "analysis") = Some (PStr analysis) /\
    dict_get d (py "red_flags") = Some (PStr red_flags) /\
    dict_get d (py "credibility_factors") = Some (PStr factors) /\
    dict_get d (py "verification_tips") = Some (PStr tips) /\
    analyze_authenticity I model req =
      ([CallModel (create_fake_news_analysis_prompt (strip text));
        CallExtract answer],
       mkResponse 200
         (PDict
            [ (py "credibility_score", PInt (Z.min 10 (Z.max 0 score)));
              (py "verdict", PStr verdict);
              (py "confidence", PInt (Z.min 100 (Z.max 0 confidence)));
              (py "analysis", PStr analysis);
              (py "red_flags", PStr red_flags);
              (py "credibility_factors", PStr factors);
              (py "verification_tips", PStr tips) ])).
Proof.
  intros Hv Hm Ho Hs Hf.
  destruct (matches_schema_int d (py "credibility_score") Hs) as [score E1];
    [simpl; tauto|].
  destruct (matches_schema_int d (py "confidence") Hs) as [confidence E3];
    [simpl; tauto|].
  destruct (matches_schema_str d (py "verdict") Hs) as [verdict E2];
    [simpl; tauto|].
  destruct (matches_schema_str d (py "analysis") Hs) as [analysis E4];
    [simpl; tauto|].
  destruct (matches_schema_str d (py "red_flags") Hs) as [red_flags E5];
    [simpl; tauto|].
  destruct (matches_schema_str d (py "credibility_factors") Hs) as [factors E6];
    [simpl; tauto|].
  destruct (matches_schema_str d (py "verification_tips") Hs) as [tips E7];
    [simpl; tauto|].
  exists score, confidence, verdict, analysis, red_flags, factors, tips.
  repeat (split; [assumption|]).
  unfold analyze_authenticity.
  rewrite (analyze_body_valid _ _ _ _ Hv),
          (analyze_article_text _ _ _ _ Hm (object_text_truthy _ _ Ho)),
          (extract_strict_eq _ _ _ (json_loads_object I _ d Ho Hs Hf)).
  unfold normalize, py_get, and_then, field.
  rewrite E1, E2, E3, E4, E5, E6, E7. reflexivity.
Qed.

Lemma wellformed_answer_gives_200_witness :
  exists score confidence verdict analysis red_flags factors tips,
    dict_get sample_record (py "credibility_score") = Some (PInt score) /\
    dict_get sample_record (py "verdict") = Some (PStr verdict) /\
    dict_get sample_record (py "confidence") = Some (PInt confidence) /\
    dict_get sample_record (py "analysis") = Some (PStr analysis) /\
    dict_get sample_record (py "red_flags") = Some (PStr red_flags) /\
    dict_get sample_record (py "credibility_factors") = Some (PStr factors) /\
    dict_get sample_record (py "verification_tips") = Some (PStr tips) /\
    analyze_authenticity roomy
      (constant_model (GenText (Some sample_answer))) (post_text sample_article) =
      ([CallModel (create_fake_news_analysis_prompt (strip sample_article));
        CallExtract sample_answer],
       mkResponse 200
         (PDict
            [ (py "credibility_score", PInt (Z.min 10 (Z.max 0 score)));
              (py "verdict", PStr verdict);
              (py "confidence", PInt (Z.min 100 (Z.max 0 confidence)));
              (py "analysis", PStr analysis);
              (py "red_flags", PStr red_flags);
              (py "credibility_factors", PStr factors);
              (py "verification_tips", PStr tips) ])).
Proof.
  apply (wellformed_answer_gives_200 roomy
           (constant_model (GenText (Some sample_answer)))
           (post_text sample_article) sample_article sample_answer sample_record).
  - valid_by_evaluation.
  - reflexivity.
  - exact sample_answer_object.
  - apply matches_schema_checked; reflexivity.
  - reflexivity.
Defined.
